(** * task_manager: the Task / TaskManager model of [main.py]

    A shallow embedding of [TaskStatus], [Task] and [TaskManager] together
    with the parts of the Python runtime they call: [str] values, [dict]
    look-up, [datetime.strftime] / [datetime.strptime] for the one format the
    program uses, the system clock and the JSON file the manager is saved to. *)

From Stdlib Require Import NArith ZArith Lia String Ascii.
From stdpp Require Import gmap list.

Local Open Scope N_scope.

(** ** Python strings

    A Python [str] is a sequence of Unicode code points. *)

Definition str : Type := list N.

Fixpoint utf8_decode (bs : list N) : str :=
  match bs with
  | [] => []
  | b :: r =>
    if b <? 128 then b :: utf8_decode r
    else if b <? 224 then
      match r with
      | b1 :: r1 => ((b mod 32) * 64 + b1 mod 64) :: utf8_decode r1
      | _ => []
      end
    else if b <? 240 then
      match r with
      | b1 :: b2 :: r2 =>
          ((b mod 16) * 4096 + (b1 mod 64) * 64 + b2 mod 64) :: utf8_decode r2
      | _ => []
      end
    else
      match r with
      | b1 :: b2 :: b3 :: r3 =>
          ((b mod 8) * 262144 + (b1 mod 64) * 4096 + (b2 mod 64) * 64 + b3 mod 64)
            :: utf8_decode r3
      | _ => []
      end
  end.

(** Source literals are written as they stand in [main.py]; the file is
    UTF-8, the literal denotes the decoded code points. *)
Definition lit (s : string) : str :=
  utf8_decode (List.map N_of_ascii (list_ascii_of_string s)).

Definition chr (a : ascii) : N := N_of_ascii a.
Arguments chr a%_char.
Arguments lit : simpl never.

(** An f-string is kept as its parts: literal text and interpolated values.
    Python renders an interpolated value with [str()], a function of the value
    alone, so two f-strings with the same parts render to the same text. *)
Inductive fpart (V : Type) : Type :=
| Text (s : str)
| Interp (v : V).
Arguments Text {V} s.
Arguments Interp {V} v.

(** ** Values that [json.load] produces *)

#[local] Unset Elimination Schemes.
Inductive pyval : Type :=
| PNone
| PBool (b : bool)
| PInt (z : Z)
| PFloat (bits : N)          (* an IEEE double, by its 64-bit pattern *)
| PStr (s : str)
| PList (l : list pyval)
| PDict (d : gmap str pyval).
#[local] Set Elimination Schemes.

Definition fstring : Type := list (fpart pyval).

(** ** Exceptions *)

Inductive value_error : Type :=
| not_a_valid_TaskStatus (v : pyval)     (* TaskStatus(v) *)
| time_data_does_not_match (s : str)     (* strptime: the regex does not match *)
| unconverted_data_remains (rest : str)  (* strptime: the match is a proper prefix *)
| out_of_range                           (* date(y, m, d) / datetime(...) *)
| invalid_literal (s : str)              (* int(s) *)
| JSONDecodeError                        (* json.load, a ValueError subclass *)
| Message (msg : fstring).               (* raise ValueError(f"...") *)

Inductive exception : Type :=
| KeyError (key : str)
| TypeError
| AttributeError
| ValueError (why : value_error)
| FileNotFoundError
| PermissionError.

(** Fallible pure code: [inl e] is a raised exception. *)
Definition result (A : Type) : Type := exception + A.

Definition rbind {A B} (x : result A) (f : A -> result B) : result B :=
  match x with
  | inl e => inl e
  | inr a => f a
  end.

Declare Scope result_scope.
Delimit Scope result_scope with result.
Notation "x <- c ;; k" := (rbind c (fun x => k))
  (at level 100, c at next level, right associativity) : result_scope.

Fixpoint mapR {A B} (f : A -> result B) (l : list A) : result (list B) :=
  match l with
  | [] => inr []
  | a :: l' =>
    match f a with
    | inl e => inl e
    | inr b =>
      match mapR f l' with
      | inl e => inl e
      | inr bs => inr (b :: bs)
      end
    end
  end.

(** [data[key]] for a [str] key. *)
Definition py_getitem (data : pyval) (key : str) : result pyval :=
  match data with
  | PDict d =>
    match d !! key with
    | Some v => inr v
    | None => inl (KeyError key)
    end
  | _ => inl TypeError
  end.

(** [data.get(key, default)]; only [dict] has the method among JSON values. *)
Definition py_get (data : pyval) (key : str) (default : pyval) : result pyval :=
  match data with
  | PDict d =>
    match d !! key with
    | Some v => inr v
    | None => inr default
    end
  | _ => inl AttributeError
  end.

(** The items a [for] clause draws from a value: the elements of a list, the
    one-character strings of a [str], the keys of a [dict]. *)
Definition py_iter (v : pyval) : result (list pyval) :=
  match v with
  | PList l => inr l
  | PStr s => inr (List.map (fun c => PStr [c]) s)
  | PDict d => inr (List.map (fun kv => PStr (fst kv)) (map_to_list d))
  | _ => inl TypeError
  end.

(** [v == s] for a [str] [s]: among JSON values only an equal [str] is. *)
Definition py_eq_str (v : pyval) (s : str) : bool :=
  match v with
  | PStr s' => bool_decide (s' = s)
  | _ => false
  end.

(** ** The Unicode tables behind [\d], [\s] and [int()]

    Decimal digits come in blocks of ten consecutive code points; the table
    lists the ZERO of each block (Unicode 14.0, as in CPython 3.11). *)

Definition decimal_zeros : list N :=
  [48; 1632; 1776; 1984; 2406; 2534; 2662; 2790; 2918; 3046; 3174; 3302; 3430;
   3558; 3664; 3792; 3872; 4160; 4240; 6112; 6160; 6470; 6608; 6784; 6800;
   6992; 7088; 7232; 7248; 42528; 43216; 43264; 43472; 43504; 43600; 44016;
   65296; 66720; 68912; 69734; 69872; 69942; 70096; 70384; 70736; 70864;
   71248; 71360; 71472; 71904; 72016; 72784; 73040; 73120; 92768; 92864;
   93008; 120782; 120792; 120802; 120812; 120822; 123200; 123632; 125264;
   130032].

Fixpoint decimal_in (zeros : list N) (c : N) : option N :=
  match zeros with
  | [] => None
  | z :: zs => if (z <=? c) && (c <? z + 10) then Some (c - z) else decimal_in zs c
  end.

(** The decimal value of a code point, if it is a decimal digit. *)
Definition py_decimal (c : N) : option N := decimal_in decimal_zeros c.

Definition whitespace : list N :=
  [9; 10; 11; 12; 13; 28; 29; 30; 31; 32; 133; 160; 5760; 8192; 8193; 8194;
   8195; 8196; 8197; 8198; 8199; 8200; 8201; 8202; 8232; 8233; 8239; 8287;
   12288].

(** [\s] of a [str] pattern, [str.isspace] of one character. *)
Definition is_space (c : N) : bool := existsb (N.eqb c) whitespace.

(** [\d] of a [str] pattern. *)
Definition is_digit (c : N) : bool :=
  match py_decimal c with
  | Some _ => true
  | None => false
  end.

Fixpoint lstrip (s : str) : str :=
  match s with
  | c :: s' => if is_space c then lstrip s' else s
  | [] => []
  end.

Fixpoint rstrip (s : str) : str :=
  match s with
  | [] => []
  | c :: s' =>
    match rstrip s' with
    | [] => if is_space c then [] else [c]
    | r => c :: r
    end
  end.

Fixpoint decimal_value (acc : N) (s : str) : option N :=
  match s with
  | [] => Some acc
  | c :: s' =>
    match py_decimal c with
    | Some v => decimal_value (10 * acc + v) s'
    | None => None
    end
  end.

(** [int(s)] on the texts the time regex captures: decimal digits, possibly
    surrounded by whitespace. *)
Definition py_int (s : str) : result N :=
  match rstrip (lstrip s) with
  | [] => inl (ValueError (invalid_literal s))
  | t =>
    match decimal_value 0 t with
    | Some n => inr n
    | None => inl (ValueError (invalid_literal s))
    end
  end.

(** ** Backtracking regular expressions, as [re.match] runs them

    A pattern takes the continuation that matches what follows it; the
    continuation receives the text the pattern consumed and the text left.
    An alternative that matches is given up again when what follows fails. *)

Section Regex.
Context {R : Type}.

Definition rx : Type := (str -> str -> option R) -> str -> option R.

Definition cls (p : N -> bool) : rx := fun k s =>
  match s with
  | c :: s' => if p c then k [c] s' else None
  | [] => None
  end.

Definition seq (a b : rx) : rx := fun k =>
  a (fun m1 => b (fun m2 => k (m1 ++ m2))).

Definition alt (a b : rx) : rx := fun k s =>
  match a k s with
  | Some r => Some r
  | None => b k s
  end.

(** [p*] after [acc] has been consumed: greedy, then shorter. *)
Fixpoint star (p : N -> bool) (acc : str) (k : str -> str -> option R) (s : str)
  : option R :=
  match s with
  | c :: s' =>
    if p c then
      match star p (acc ++ [c]) k s' with
      | Some r => Some r
      | None => k acc s
      end
    else k acc s
  | [] => k acc []
  end.

Definition plus (p : N -> bool) : rx := fun k s =>
  match s with
  | c :: s' => if p c then star p [c] k s' else None
  | [] => None
  end.
End Regex.

Definition one (a : ascii) (c : N) : bool := c =? chr a.
Definition range (lo hi : ascii) (c : N) : bool := (chr lo <=? c) && (c <=? chr hi).
Arguments one a%_char c.
Arguments range (lo hi)%_char c.

Section TimeRE.
Context {R : Type}.

(** [(?P<Y>\d\d\d\d)] *)
Definition re_Y : @rx R :=
  seq (cls is_digit) (seq (cls is_digit) (seq (cls is_digit) (cls is_digit))).

(** [(?P<m>1[0-2]|0[1-9]|[1-9])] *)
Definition re_m : @rx R :=
  alt (seq (cls (one "1")) (cls (range "0" "2")))
 (alt (seq (cls (one "0")) (cls (range "1" "9")))
      (cls (range "1" "9"))).

(** [(?P<d>3[0-1]|[1-2]\d|0[1-9]|[1-9]| [1-9])] *)
Definition re_d : @rx R :=
  alt (seq (cls (one "3")) (cls (range "0" "1")))
 (alt (seq (cls (range "1" "2")) (cls is_digit))
 (alt (seq (cls (one "0")) (cls (range "1" "9")))
 (alt (cls (range "1" "9"))
      (seq (cls (one " ")) (cls (range "1" "9")))))).

(** [(?P<H>2[0-3]|[0-1]\d|\d)] *)
Definition re_H : @rx R :=
  alt (seq (cls (one "2")) (cls (range "0" "3")))
 (alt (seq (cls (range "0" "1")) (cls is_digit))
      (cls is_digit)).

(** [(?P<M>[0-5]\d|\d)] *)
Definition re_M : @rx R :=
  alt (seq (cls (range "0" "5")) (cls is_digit)) (cls is_digit).

(** [(?P<S>6[0-1]|[0-5]\d|\d)] *)
Definition re_S : @rx R :=
  alt (seq (cls (one "6")) (cls (range "0" "1")))
 (alt (seq (cls (range "0" "5")) (cls is_digit))
      (cls is_digit)).
End TimeRE.

(** The groups of a match and the text after it. *)
Record time_match : Type := {
  g_Y : str; g_m : str; g_d : str; g_H : str; g_M : str; g_S : str;
  unconverted : str
}.

(** The regex [_strptime] compiles from ["%Y-%m-%d %H:%M:%S"]: each directive
    becomes its group, the blank becomes [\s+], [-] and [:] stand for
    themselves. *)
Definition time_re (s : str) : option time_match :=
  re_Y (fun Y => cls (one "-") (fun _ =>
  re_m (fun m => cls (one "-") (fun _ =>
  re_d (fun d => plus is_space (fun _ =>
  re_H (fun H => cls (one ":") (fun _ =>
  re_M (fun M => cls (one ":") (fun _ =>
  re_S (fun S rest =>
    Some {| g_Y := Y; g_m := m; g_d := d; g_H := H; g_M := M; g_S := S;
            unconverted := rest |}))))))))))) s.

(** ** [datetime], naive, as the program creates it *)

Record datetime : Type := {
  year : N; month : N; day : N;
  hour : N; minute : N; second : N; microsecond : N
}.

Definition is_leap (y : N) : bool :=
  (y mod 4 =? 0) && (negb (y mod 100 =? 0) || (y mod 400 =? 0)).

Definition days_in_month (y m : N) : N :=
  if m =? 2 then (if is_leap y then 29 else 28)
  else if (m =? 4) || (m =? 6) || (m =? 9) || (m =? 11) then 30
  else 31.

(** The checks of the [date] and [datetime] constructors. *)
Definition valid_date (y m d : N) : bool :=
  (1 <=? y) && (y <=? 9999) && (1 <=? m) && (m <=? 12) &&
  (1 <=? d) && (d <=? days_in_month y m).

Definition valid_time (H M S us : N) : bool :=
  (H <? 24) && (M <? 60) && (S <? 60) && (us <? 1000000).

Definition valid_datetime (t : datetime) : bool :=
  valid_date (year t) (month t) (day t) &&
  valid_time (hour t) (minute t) (second t) (microsecond t).

(** Dropping the sub-second part. *)
Definition truncate (t : datetime) : datetime :=
  {| year := year t; month := month t; day := day t;
     hour := hour t; minute := minute t; second := second t;
     microsecond := 0 |}.

Definition digit_char (n : N) : N := 48 + n mod 10.

Definition zpad2 (n : N) : str := [digit_char (n / 10); digit_char n].

Definition zpad4 (n : N) : str :=
  [digit_char (n / 1000); digit_char (n / 100); digit_char (n / 10); digit_char n].

(** [t.strftime("%Y-%m-%d %H:%M:%S")]. [%Y] is the year zero-padded to four
    digits, as documented (CPython before 3.13 left the padding of years
    below 1000 to the platform's C library). *)
Definition strftime (t : datetime) : str :=
  zpad4 (year t) ++ [chr "-"] ++ zpad2 (month t) ++ [chr "-"] ++ zpad2 (day t)
    ++ [chr " "]
    ++ zpad2 (hour t) ++ [chr ":"] ++ zpad2 (minute t) ++ [chr ":"] ++ zpad2 (second t).

(** [datetime.strptime(v, "%Y-%m-%d %H:%M:%S")]. *)
Definition strptime (v : pyval) : result datetime :=
  match v with
  | PStr data_string =>
    match time_re data_string with
    | None => inl (ValueError (time_data_does_not_match data_string))
    | Some found =>
      match unconverted found with
      | _ :: _ => inl (ValueError (unconverted_data_remains (unconverted found)))
      | [] =>
        (y <- py_int (g_Y found) ;;
         m <- py_int (g_m found) ;;
         d <- py_int (g_d found) ;;
         H <- py_int (g_H found) ;;
         M <- py_int (g_M found) ;;
         S <- py_int (g_S found) ;;
         if valid_date y m d && valid_time H M S 0 then
           inr {| year := y; month := m; day := d;
                  hour := H; minute := M; second := S; microsecond := 0 |}
         else inl (ValueError out_of_range))%result
      end
    end
  | _ => inl TypeError
  end.

(** ** [class TaskStatus(Enum)] *)

Inductive TaskStatus : Type :=
| NEW
| IN_PROGRESS
| IN_REVIEW
| COMPLETED
| CANCELED.

Definition value : TaskStatus -> str := Eval vm_compute in fun s =>
  match s with
  | NEW => lit "Новая"
  | IN_PROGRESS => lit "Выполняется"
  | IN_REVIEW => lit "Ревью"
  | COMPLETED => lit "Выполнено"
  | CANCELED => lit "Отменено"
  end.

(** The members, in definition order. *)
Definition members : list TaskStatus :=
  [NEW; IN_PROGRESS; IN_REVIEW; COMPLETED; CANCELED].

(** [TaskStatus(v)]: the member whose value is [v]. *)
Definition TaskStatus_of (v : pyval) : result TaskStatus :=
  match List.find (fun m => py_eq_str v (value m)) members with
  | Some m => inr m
  | None => inl (ValueError (not_a_valid_TaskStatus v))
  end.

(** ** [class Task]

    The dataclass checks no field type: [title] and [description] hold
    whatever value they were given. *)

Record Task : Type := {
  title : pyval;
  description : pyval;
  status : TaskStatus;
  created_date : datetime;
  status_changed_date : datetime
}.

Definition k_title : str := Eval vm_compute in lit "title".
Definition k_description : str := Eval vm_compute in lit "description".
Definition k_status : str := Eval vm_compute in lit "status".
Definition k_created_date : str := Eval vm_compute in lit "created_date".
Definition k_status_changed_date : str := Eval vm_compute in lit "status_changed_date".
Definition k_tasks : str := Eval vm_compute in lit "tasks".

Definition to_dict (self : Task) : pyval :=
  PDict (<[k_title := title self]>
        (<[k_description := description self]>
        (<[k_status := PStr (value (status self))]>
        (<[k_created_date := PStr (strftime (created_date self))]>
        (<[k_status_changed_date := PStr (strftime (status_changed_date self))]>
         ∅))))).

Definition from_dict (data : pyval) : result Task :=
  (t <- py_getitem data k_title ;;
   d <- py_getitem data k_description ;;
   s <- (v <- py_getitem data k_status ;; TaskStatus_of v) ;;
   c <- (v <- py_getitem data k_created_date ;; strptime v) ;;
   sc <- (v <- py_getitem data k_status_changed_date ;; strptime v) ;;
   inr {| title := t; description := d; status := s;
          created_date := c; status_changed_date := sc |})%result.

(** ** [class TaskManager] and the world around it

    [self.tasks] is a list of task objects, each at one position of the list:
    the menu loop builds a new [Task] for every addition and [load_from_file]
    one for every record. The list is kept as the list of their contents, and
    an assignment to a field of a task is an update at the task's position. *)

Record TaskManager : Type := {
  tasks : list Task;
  history : list fstring
}.

(** What [json.load] makes of a file: the document [json.dump] wrote to it,
    or nothing when the text is not JSON. *)
Inductive file : Type :=
| NotJSON
| JSON (doc : pyval).

Record State : Type := {
  self : TaskManager;          (* the manager the methods run on *)
  clock : nat -> datetime;     (* what the n-th [datetime.now()] returns *)
  ticks : nat;                 (* how many times the clock was read *)
  files : gmap str file;
  writable : str -> bool       (* whether [open(path, "w")] succeeds *)
}.

(** State and exceptions: a raised exception keeps the state reached. *)
Definition M (A : Type) : Type := State -> result A * State.

Definition ret {A} (a : A) : M A := fun st => (inr a, st).

Definition raise {A} (e : exception) : M A := fun st => (inl e, st).

Definition bind {A B} (c : M A) (f : A -> M B) : M B := fun st =>
  match c st with
  | (inl e, st') => (inl e, st')
  | (inr a, st') => f a st'
  end.

Definition lift {A} (r : result A) : M A := fun st => (r, st).

Declare Scope M_scope.
Delimit Scope M_scope with M.
Notation "x <- c ;; k" := (bind c (fun x => k))
  (at level 100, c at next level, right associativity) : M_scope.
Notation "c ;;; k" := (bind c (fun _ => k))
  (at level 100, right associativity) : M_scope.

Definition get_self : M TaskManager := fun st => (inr (self st), st).

Definition set_self (m : TaskManager) : M unit := fun st =>
  (inr tt, {| self := m; clock := clock st; ticks := ticks st;
              files := files st; writable := writable st |}).

(** [datetime.now()] *)
Definition now : M datetime := fun st =>
  (inr (clock st (ticks st)),
   {| self := self st; clock := clock st; ticks := S (ticks st);
      files := files st; writable := writable st |}).

(** [with open(file_path, "w") as file: json.dump(data, file, indent=2)] *)
Definition json_dump (data : pyval) (file_path : str) : M unit := fun st =>
  if writable st file_path then
    (inr tt, {| self := self st; clock := clock st; ticks := ticks st;
                files := <[file_path := JSON data]> (files st);
                writable := writable st |})
  else (inl PermissionError, st).

(** [with open(file_path, "r") as file: data = json.load(file)] *)
Definition json_load (file_path : str) : M pyval := fun st =>
  match files st !! file_path with
  | None => (inl FileNotFoundError, st)
  | Some NotJSON => (inl (ValueError JSONDecodeError), st)
  | Some (JSON doc) => (inr doc, st)
  end.

(** [TaskManager(tasks)]: [self.tasks = tasks or []], [self.history = []]. *)
Definition TaskManager_init (tasks : option (list Task)) : TaskManager :=
  {| tasks := match tasks with
              | Some (t :: l) => t :: l
              | _ => []
              end;
     history := [] |}.

(** [self.tasks.append(task)] *)
Definition tasks_append (task : Task) : M unit :=
  (m <- get_self ;;
   set_self {| tasks := tasks m ++ [task]; history := history m |})%M.

(** [self.history.append(entry)] *)
Definition history_append (entry : fstring) : M unit :=
  (m <- get_self ;;
   set_self {| tasks := tasks m; history := history m ++ [entry] |})%M.

(** An assignment to a field of the task object at position [i] of
    [self.tasks]. *)
Definition update_task (i : nat) (f : Task -> Task) : M unit :=
  (m <- get_self ;;
   set_self {| tasks := alter f i (tasks m); history := history m |})%M.

Definition set_status (new_status : TaskStatus) (task : Task) : Task :=
  {| title := title task; description := description task;
     status := new_status;
     created_date := created_date task;
     status_changed_date := status_changed_date task |}.

Definition set_status_changed_date (t : datetime) (task : Task) : Task :=
  {| title := title task; description := description task;
     status := status task;
     created_date := created_date task;
     status_changed_date := t |}.

Definition add_task (task : Task) : M unit :=
  (tasks_append task ;;;
   history_append [Text (lit "Добавлена задача: "); Interp (title task)])%M.

(** The [for task in self.tasks: ... break / else: raise] loop; [i] is the
    position of the head of [ts] in [self.tasks]. *)
Fixpoint change_task_status_loop (i : nat) (ts : list Task)
    (task_title : str) (new_status : TaskStatus) : M unit :=
  match ts with
  | task :: rest =>
    if py_eq_str (title task) task_title then
      (update_task i (set_status new_status) ;;;
       t <- now ;;
       update_task i (set_status_changed_date t) ;;;
       history_append
         [Text (lit "Статус задачи '"); Interp (title task);
          Text (lit "' изменен на '"); Interp (PStr (value new_status));
          Text (lit "'")])%M
    else change_task_status_loop (S i) rest task_title new_status
  | [] =>
    raise (ValueError (Message
      [Text (lit "Задача с названием '"); Interp (PStr task_title);
       Text (lit "' не найдена")]))
  end.

Definition change_task_status (task_title : str) (new_status : TaskStatus) : M unit :=
  (m <- get_self ;;
   change_task_status_loop 0 (tasks m) task_title new_status)%M.

Definition cancel_task (task_title : str) : M unit :=
  change_task_status task_title CANCELED.

Definition save_to_file (file_path : str) : M unit :=
  (m <- get_self ;;
   json_dump (PDict {[ k_tasks := PList (List.map to_dict (tasks m)) ]}) file_path)%M.

Definition load_from_file (file_path : str) : M TaskManager :=
  (data <- json_load file_path ;;
   tasks_data <- lift (py_get data k_tasks (PList [])) ;;
   items <- lift (py_iter tasks_data) ;;
   tasks <- lift (mapR from_dict items) ;;
   ret (TaskManager_init (Some tasks)))%M.

(** The branch [choice == "1"] of the menu loop: the caller's AddTask. *)
Definition main_add (title description : str) : M unit :=
  (c <- now ;;
   sc <- now ;;
   add_task {| title := PStr title; description := PStr description;
               status := NEW;
               created_date := c; status_changed_date := sc |})%M.

(** ** Notions the specification speaks in *)

(** A task as it is persisted: both timestamps at second precision. *)
Definition truncate_task (t : Task) : Task :=
  {| title := title t; description := description t; status := status t;
     created_date := truncate (created_date t);
     status_changed_date := truncate (status_changed_date t) |}.

(** A task whose timestamps are values a [datetime] can hold. *)
Definition valid_task (t : Task) : bool :=
  valid_datetime (created_date t) && valid_datetime (status_changed_date t).

(** The five keys [from_dict] reads. *)
Definition required_keys : list str :=
  [k_title; k_description; k_status; k_created_date; k_status_changed_date].

(** A record cut down to the required keys. *)
Definition restrict (r : gmap str pyval) : gmap str pyval :=
  filter (fun kv => fst kv ∈ required_keys) r.

Definition raises {A} (x : result A) : Prop := exists e, x = inl e.

(** The specification's FormatError: what a malformed record raises. *)
Definition FormatError (e : exception) : Prop :=
  match e with
  | KeyError _ | TypeError | AttributeError => True
  | ValueError (Message _) => False
  | ValueError _ => True
  | _ => False
  end.

(** The specification's NotFoundError: the [ValueError] that
    [change_task_status] raises for [task_title]. *)
Definition NotFoundError (task_title : str) : exception :=
  ValueError (Message
    [Text (lit "Задача с названием '"); Interp (PStr task_title);
     Text (lit "' не найдена")]).

Definition key_missing (r : gmap str pyval) : Prop :=
  exists k, k ∈ required_keys /\ r !! k = None.

Definition status_unknown (r : gmap str pyval) : Prop :=
  exists v, r !! k_status = Some v /\ forall s, v <> PStr (value s).

Definition ascii_digit (c : N) : bool := range "0" "9" c.

(** The exact format [YYYY-MM-DD HH:MM:SS]: nineteen characters, digits and
    separators each in their place. *)
Definition exact_format (s : str) : bool :=
  match s with
  | [y1; y2; y3; y4; h1; m1; m2; h2; d1; d2; sp; H1; H2; c1; M1; M2; c2; S1; S2] =>
      forallb ascii_digit [y1; y2; y3; y4; m1; m2; d1; d2; H1; H2; M1; M2; S1; S2]
      && (h1 =? chr "-") && (h2 =? chr "-") && (sp =? chr " ")
      && (c1 =? chr ":") && (c2 =? chr ":")
  | _ => false
  end.

Definition timestamp_keys : list str := [k_created_date; k_status_changed_date].

(** Some timestamp is not a string in the exact format. *)
Definition timestamp_inexact (r : gmap str pyval) : Prop :=
  exists k v, k ∈ timestamp_keys /\ r !! k = Some v /\
    forall s, v = PStr s -> exact_format s = false.

(** *** The timestamps [strptime] reads

    A group is spelled by one of its alternatives, a character class per
    position. *)
Definition spelling (classes : list (N -> bool)) (text : str) : Prop :=
  Forall2 (fun p c => p c = true) classes text.

Definition spelled (alternatives : list (list (N -> bool))) (text : str) : Prop :=
  Exists (fun classes => spelling classes text) alternatives.

Definition Y_texts : list (list (N -> bool)) :=
  [[is_digit; is_digit; is_digit; is_digit]].

Definition m_texts : list (list (N -> bool)) :=
  [[one "1"; range "0" "2"]; [one "0"; range "1" "9"]; [range "1" "9"]].

Definition d_texts : list (list (N -> bool)) :=
  [[one "3"; range "0" "1"]; [range "1" "2"; is_digit]; [one "0"; range "1" "9"];
   [range "1" "9"]; [one " "; range "1" "9"]].

Definition H_texts : list (list (N -> bool)) :=
  [[one "2"; range "0" "3"]; [range "0" "1"; is_digit]; [is_digit]].

Definition M_texts : list (list (N -> bool)) :=
  [[range "0" "5"; is_digit]; [is_digit]].

Definition S_texts : list (list (N -> bool)) :=
  [[one "6"; range "0" "1"]; [range "0" "5"; is_digit]; [is_digit]].

(** [s] reads as the time [t]: a four-digit year, then month, day, hour,
    minute and second of one or two digits, [-] and [:] between them, any
    non-empty run of whitespace between date and time, and the numbers make a
    date and a time of day that exist. *)
Definition time_data (s : str) (t : datetime) : Prop :=
  exists Y m d ws H M S,
    s = Y ++ chr "-" :: m ++ chr "-" :: d ++ ws ++ H ++ chr ":" :: M ++ chr ":" :: S /\
    spelled Y_texts Y /\ spelled m_texts m /\ spelled d_texts d /\
    (ws <> [] /\ Forall (fun c => is_space c = true) ws) /\
    spelled H_texts H /\ spelled M_texts M /\ spelled S_texts S /\
    py_int Y = inr (year t) /\ py_int m = inr (month t) /\ py_int d = inr (day t) /\
    py_int H = inr (hour t) /\ py_int M = inr (minute t) /\ py_int S = inr (second t) /\
    microsecond t = 0 /\ valid_datetime t = true.

(** Some timestamp is not a string that reads as a time. *)
Definition timestamp_unreadable (r : gmap str pyval) : Prop :=
  exists k v, k ∈ timestamp_keys /\ r !! k = Some v /\
    forall s t, v = PStr s -> ~ time_data s t.

(** A group match reads one of the group's spellings off the front of the
    string and hands the rest on. *)
Definition reads {R} (a : @rx R) (texts : list (list (N -> bool))) : Prop :=
  forall k s r, a k s = Some r ->
    exists m rest, s = m ++ rest /\ spelled texts m /\ k m rest = Some r.

(** What may follow a group: the end of the string or a character that is no
    digit. *)
Definition no_digit_ahead (rest : str) : Prop :=
  match rest with
  | [] => True
  | c :: _ => is_digit c = false
  end.

(** A group match finds a spelling that is followed by no digit. *)
Definition finds {R} (a : @rx R) (texts : list (list (N -> bool))) : Prop :=
  forall k m rest r, spelled texts m -> no_digit_ahead rest ->
    k m rest = Some r -> a k (m ++ rest) = Some r.

(** A run of AddTask calls, one per (title, description). *)
Fixpoint add_all (calls : list (str * str)) : M unit :=
  match calls with
  | [] => ret tt
  | (title, description) :: rest => (main_add title description ;;; add_all rest)%M
  end.

(** The task a status change leaves at the position it found. *)
Definition changed (new_status : TaskStatus) (t : datetime) (task : Task) : Task :=
  {| title := title task; description := description task;
     status := new_status;
     created_date := created_date task;
     status_changed_date := t |}.

(** ** Sample data *)

Definition sample_time : datetime :=
  {| year := 2024; month := 2; day := 29;
     hour := 23; minute := 59; second := 58; microsecond := 0 |}.

Definition sample_task : Task :=
  {| title := PStr (lit "Write spec"); description := PStr (lit "");
     status := NEW;
     created_date := sample_time; status_changed_date := sample_time |}.

(** A record whose [created_date] has no leading zeros. *)
Definition lenient_record : gmap str pyval :=
  <[k_title := PStr (lit "Write spec")]>
 (<[k_description := PStr (lit "")]>
 (<[k_status := PStr (value NEW)]>
 (<[k_created_date := PStr (lit "2024-1-5 3:4:5")]>
 (<[k_status_changed_date := PStr (lit "2024-01-05 03:04:05")]> ∅)))).

Definition lenient_task : Task :=
  {| title := PStr (lit "Write spec"); description := PStr (lit "");
     status := NEW;
     created_date := {| year := 2024; month := 1; day := 5;
                        hour := 3; minute := 4; second := 5; microsecond := 0 |};
     status_changed_date := {| year := 2024; month := 1; day := 5;
                               hour := 3; minute := 4; second := 5;
                               microsecond := 0 |} |}.

(** A record in the exact format whose date does not exist. *)
Definition february_30_record : gmap str pyval :=
  <[k_created_date := PStr (lit "2024-02-30 10:00:00")]> lenient_record.

(** A record with a key [from_dict] does not read. *)
Definition extra_keys : gmap str pyval :=
  <[lit "priority" := PInt 3]> (<[lit "tags" := PList [PStr (lit "a")]]> ∅).

(** A clock that advances by a microsecond per reading. *)
Definition ticking_clock (n : nat) : datetime :=
  {| year := 2024; month := 2; day := 29;
     hour := 23; minute := 59; second := 58; microsecond := N.of_nat n |}.

Definition state_of (ts : list Task) : State :=
  {| self := {| tasks := ts; history := [] |};
     clock := ticking_clock; ticks := 0;
     files := ∅; writable := fun _ => true |}.

Definition other_task : Task :=
  {| title := PStr (lit "Review"); description := PStr (lit "second look");
     status := IN_PROGRESS;
     created_date := sample_time; status_changed_date := sample_time |}.


(** A state whose file ["tasks.json"] holds the document [doc]. *)
Definition state_with_file (doc : pyval) : State :=
  {| self := TaskManager_init None;
     clock := ticking_clock; ticks := 0;
     files := {[ lit "tasks.json" := JSON doc ]};
     writable := fun _ => true |}.

(** ** More of the program: member names and the menu loop *)

(** The symbolic names of the members. *)
Definition name : TaskStatus -> str := Eval vm_compute in fun s =>
  match s with
  | NEW => lit "NEW"
  | IN_PROGRESS => lit "IN_PROGRESS"
  | IN_REVIEW => lit "IN_REVIEW"
  | COMPLETED => lit "COMPLETED"
  | CANCELED => lit "CANCELED"
  end.

(** [TaskStatus[n]]: the member named [n]. *)
Definition TaskStatus_by_name (n : str) : result TaskStatus :=
  match List.find (fun m => bool_decide (name m = n)) members with
  | Some m => inr m
  | None => inl (KeyError n)
  end.

(** What no operation changes about a task. *)
Definition identity_of (task : Task) : pyval * pyval * datetime :=
  (title task, description task, created_date task).

(** A call of a method of the manager. *)
Inductive call : Type :=
| call_add_task (task : Task)
| call_change_task_status (task_title : str) (new_status : TaskStatus)
| call_cancel_task (task_title : str)
| call_save_to_file (file_path : str).

Definition run_call (c : call) : M unit :=
  match c with
  | call_add_task task => add_task task
  | call_change_task_status task_title new_status =>
      change_task_status task_title new_status
  | call_cancel_task task_title => cancel_task task_title
  | call_save_to_file file_path => save_to_file file_path
  end.

(** A caller making the calls one after the other, going on after a call
    that raised. *)
Fixpoint run_calls (cs : list call) (st : State) : State :=
  match cs with
  | [] => st
  | c :: cs' => run_calls cs' (snd (run_call c st))
  end.

Definition is_add (c : call) : bool :=
  match c with
  | call_add_task _ => true
  | _ => false
  end.

(** [task_manager = m]: the state with [m] as the manager. *)
Definition with_manager (m : TaskManager) (st : State) : State :=
  snd (set_self m st).

(** *** The menu loop of [__main__]

    The console is the lines still to be read from standard input and what
    was written to standard output, one entry per [print] call or [input]
    prompt. [input] raises [EOFError] when no line is left. *)

Inductive termination : Type :=
| returned                       (* the loop was left by [break] *)
| raised (e : exception)         (* an exception left the program *)
| raised_EOFError.               (* [input] at the end of the input *)

Definition menu_text : list fstring :=
  [ [Text (10 :: lit "1. Добавить задачу")];
    [Text (lit "2. Изменить статус задачи")];
    [Text (lit "3. Отменить задачу")];
    [Text (lit "4. Сохранить и выйти")];
    [Text (lit "5. Выйти без сохранения")] ].

Definition is_KeyError (e : exception) : bool :=
  match e with
  | KeyError _ => true
  | _ => false
  end.

Section Menu.
(** [str.upper], whose Unicode tables are not part of the program. *)
Variable upper : str -> str.

(** The body of [try:] in the branch [choice == "2"]. *)
Definition change_by_name (title status_str : str) : M TaskStatus :=
  (new_status <- lift (TaskStatus_by_name (upper status_str)) ;;
   change_task_status title new_status ;;;
   ret new_status)%M.

(** [while True: ...] with [file] for [args.file]. *)
Fixpoint menu_loop (file : str) (stdin : list str) (st : State) (stdout : list fstring)
  : termination * State * list fstring :=
  let stdout := stdout ++ menu_text ++ [[Text (lit "Выберите действие (1-5): ")]] in
  match stdin with
  | [] => (raised_EOFError, st, stdout)
  | choice :: stdin1 =>
    if bool_decide (choice = lit "1") then
      let stdout := stdout ++ [[Text (lit "Введите название задачи: ")]] in
      match stdin1 with
      | [] => (raised_EOFError, st, stdout)
      | title :: stdin2 =>
        let stdout := stdout ++ [[Text (lit "Введите описание задачи: ")]] in
        match stdin2 with
        | [] => (raised_EOFError, st, stdout)
        | description :: stdin3 =>
          match main_add title description st with
          | (inl e, st') => (raised e, st', stdout)
          | (inr _, st') =>
              menu_loop file stdin3 st'
                (stdout ++ [[Text (lit "Задача '"); Interp (PStr title);
                             Text (lit "' добавлена.")]])
          end
        end
      end
    else if bool_decide (choice = lit "2") then
      let stdout := stdout ++ [[Text (lit "Введите название задачи: ")]] in
      match stdin1 with
      | [] => (raised_EOFError, st, stdout)
      | title :: stdin2 =>
        let stdout := stdout ++
          [[Text (lit "Введите новый статус задачи (NEW, IN_PROGRESS, IN_REVIEW, COMPLETED, CANCELED): ")]] in
        match stdin2 with
        | [] => (raised_EOFError, st, stdout)
        | status_str :: stdin3 =>
          match change_by_name title status_str st with
          | (inr new_status, st') =>
              menu_loop file stdin3 st'
                (stdout ++ [[Text (lit "Статус задачи '"); Interp (PStr title);
                             Text (lit "' изменен на '");
                             Interp (PStr (value new_status)); Text (lit "'.")]])
          | (inl e, st') =>
              if is_KeyError e then                     (* except KeyError: *)
                menu_loop file stdin3 st' (stdout ++ [[Text (lit "Неверный статус.")]])
              else (raised e, st', stdout)
          end
        end
      end
    else if bool_decide (choice = lit "3") then
      let stdout := stdout ++ [[Text (lit "Введите название задачи: ")]] in
      match stdin1 with
      | [] => (raised_EOFError, st, stdout)
      | title :: stdin2 =>
        match cancel_task title st with
        | (inl e, st') => (raised e, st', stdout)
        | (inr _, st') =>
            menu_loop file stdin2 st'
              (stdout ++ [[Text (lit "Задача '"); Interp (PStr title);
                           Text (lit "' отменена.")]])
        end
      end
    else if bool_decide (choice = lit "4") then
      match save_to_file file st with
      | (inl e, st') => (raised e, st', stdout)
      | (inr _, st') =>
          (returned, st',
           stdout ++ [[Text (lit "Состояние задач сохранено в файл '");
                       Interp (PStr file); Text (lit "'.")]])
      end
    else if bool_decide (choice = lit "5") then (returned, st, stdout)
    else
      menu_loop file stdin1 st
        (stdout ++ [[Text (lit "Неверный выбор. Попробуйте снова.")]])
  end.

(** The program: load the file or start empty, then run the menu. The state
    given holds no manager yet; [self] is set by the assignment to
    [task_manager]. *)
Definition main (file : str) (stdin : list str) (st : State)
  : termination * State * list fstring :=
  match load_from_file file st with
  | (inr m, st') => menu_loop file stdin (with_manager m st') []
  | (inl FileNotFoundError, st') =>
      menu_loop file stdin (with_manager (TaskManager_init None) st') []
  | (inl e, st') => (raised e, st', [])
  end.
End Menu.

(** [str.upper] on ASCII text, for running the menu on examples. *)
Definition ascii_upper (s : str) : str :=
  List.map (fun c => if (97 <=? c) && (c <=? 122) then c - 32 else c) s.

Definition how (r : termination * State * list fstring) : termination := fst (fst r).
Definition final_state (r : termination * State * list fstring) : State := snd (fst r).

(** A run of the menu keeps the relation [R] between the states, at least up
    to the save it ends with. *)
Definition kept (R : State -> State -> Prop) (file : str) (st : State)
    (r : termination * State * list fstring) : Prop :=
  R st (snd (fst r)) \/
  (fst (fst r) = returned /\
   exists st1, R st st1 /\ save_to_file file st1 = (inr tt, snd (fst r))).


(** * Facts about the runtime model *)

(** [lia] with division and remainder by constants. *)
Ltac Zify.zify_post_hook ::= Z.to_euclidean_division_equations.

Lemma decimal_in_head z zs c :
  z <= c < z + 10 -> decimal_in (z :: zs) c = Some (c - z).
Proof.
  intros [Hlo Hhi]. cbn [decimal_in].
  apply N.leb_le in Hlo. apply N.ltb_lt in Hhi. now rewrite Hlo, Hhi.
Qed.

Lemma py_decimal_ascii v : v < 10 -> py_decimal (48 + v) = Some v.
Proof.
  intros Hv. unfold py_decimal, decimal_zeros.
  rewrite decimal_in_head by lia. f_equal. lia.
Qed.

Lemma is_digit_ascii v : v < 10 -> is_digit (48 + v) = true.
Proof. intros Hv. unfold is_digit. now rewrite py_decimal_ascii. Qed.

Lemma is_space_In c : is_space c = true <-> In c whitespace.
Proof.
  unfold is_space. rewrite existsb_exists. split.
  - intros (x & Hx & Heq). apply N.eqb_eq in Heq. now subst.
  - intros Hc. exists c. split; [assumption | apply N.eqb_refl].
Qed.

Lemma space_not_decimal c : is_space c = true -> py_decimal c = None.
Proof.
  intros Hc. apply is_space_In in Hc. unfold whitespace in Hc.
  repeat (destruct Hc as [<- | Hc]; [vm_compute; reflexivity |]).
  destruct Hc.
Qed.

Lemma decimal_not_space c v : py_decimal c = Some v -> is_space c = false.
Proof.
  intros Hc. destruct (is_space c) eqn:Hs; [| reflexivity].
  apply space_not_decimal in Hs. congruence.
Qed.

Lemma is_digit_not_space c : is_digit c = true -> is_space c = false.
Proof.
  unfold is_digit. destruct (py_decimal c) eqn:Hc; [| discriminate].
  intros _. eapply decimal_not_space, Hc.
Qed.

Lemma decimal_in_bound zs c v : decimal_in zs c = Some v -> v < 10.
Proof.
  induction zs as [| z zs IH]; cbn [decimal_in]; [discriminate |].
  destruct ((z <=? c) && (c <? z + 10)) eqn:Hz; [| exact IH].
  apply andb_true_iff in Hz as [Hlo Hhi].
  apply N.leb_le in Hlo. apply N.ltb_lt in Hhi.
  intros [= <-]. lia.
Qed.

Lemma py_decimal_bound c v : py_decimal c = Some v -> v < 10.
Proof. apply decimal_in_bound. Qed.

Lemma digit_char_spec n : digit_char n = 48 + n mod 10 /\ n mod 10 < 10.
Proof. unfold digit_char. split; [reflexivity | lia]. Qed.

Lemma lstrip_head c s : is_space c = false -> lstrip (c :: s) = c :: s.
Proof. intros Hc. cbn [lstrip]. now rewrite Hc. Qed.

Lemma rstrip_id (s : str) :
  Forall (fun c => is_space c = false) s -> rstrip s = s.
Proof.
  induction 1 as [| c s Hc _ IH]; [reflexivity |].
  cbn [rstrip]. rewrite IH. destruct s; [now rewrite Hc | reflexivity].
Qed.

Lemma py_int_digits (s : str) n :
  s <> [] -> Forall (fun c => is_digit c = true) s ->
  decimal_value 0 s = Some n -> py_int s = inr n.
Proof.
  intros Hne Hs Hv. unfold py_int.
  assert (Hsp : Forall (fun c => is_space c = false) s).
  { eapply Forall_impl; [exact Hs |]. intros c. apply is_digit_not_space. }
  destruct s as [| c s]; [congruence |].
  rewrite lstrip_head by (now inversion Hsp).
  rewrite rstrip_id by assumption. now rewrite Hv.
Qed.

Lemma py_int_zpad2 n : n < 100 -> py_int (zpad2 n) = inr n.
Proof.
  intros Hn. unfold zpad2, digit_char. apply py_int_digits.
  - discriminate.
  - repeat constructor; apply is_digit_ascii; lia.
  - cbn [decimal_value]. rewrite !py_decimal_ascii by lia. f_equal. lia.
Qed.

Lemma py_int_zpad4 n : n < 10000 -> py_int (zpad4 n) = inr n.
Proof.
  intros Hn. unfold zpad4, digit_char. apply py_int_digits.
  - discriminate.
  - repeat constructor; apply is_digit_ascii; lia.
  - cbn [decimal_value]. rewrite !py_decimal_ascii by lia. f_equal.
    replace (n / 1000) with (n / 10 / 10 / 10) by (now rewrite !N.Div0.div_div).
    replace (n / 100) with (n / 10 / 10) by (now rewrite !N.Div0.div_div).
    lia.
Qed.

(** ** The time regex on what [strftime] prints *)

Section OnPadded.
Context {R : Type}.
Implicit Types (k : str -> str -> option R) (rest : str) (r : R).

Lemma cls_cons (p : N -> bool) k c rest :
  p c = true -> cls p k (c :: rest) = k [c] rest.
Proof. intros Hp. unfold cls. now rewrite Hp. Qed.

Lemma cls_cons_false (p : N -> bool) k c rest :
  p c = false -> cls p k (c :: rest) = None.
Proof. intros Hp. unfold cls. now rewrite Hp. Qed.

Lemma alt_l (a b : @rx R) k s r : a k s = Some r -> alt a b k s = Some r.
Proof. intros H. unfold alt. now rewrite H. Qed.

Lemma alt_r (a b : @rx R) k s : a k s = None -> alt a b k s = b k s.
Proof. intros H. unfold alt. now rewrite H. Qed.

Lemma one_digit (a : ascii) v : one a (48 + v) = (48 + v =? chr a).
Proof. reflexivity. Qed.

Lemma range_digit lo hi v :
  chr lo <= 48 + v <= chr hi -> range lo hi (48 + v) = true.
Proof.
  intros [Hlo Hhi]. unfold range.
  apply N.leb_le in Hlo. apply N.leb_le in Hhi. now rewrite Hlo, Hhi.
Qed.

Lemma re_Y_zpad4 k n rest : re_Y k (zpad4 n ++ rest) = k (zpad4 n) rest.
Proof.
  unfold re_Y, seq, zpad4, digit_char. cbn [app].
  now rewrite !cls_cons by (apply is_digit_ascii; lia).
Qed.

Ltac two_digits :=
  unfold seq; rewrite cls_cons; [rewrite cls_cons |]; cbn [app];
  try assumption;
  try (apply range_digit; cbn; lia);
  try (apply is_digit_ascii; lia);
  try (unfold one; apply N.eqb_eq; cbn; lia).

Ltac no_match :=
  unfold seq; apply cls_cons_false;
  first [ unfold one; apply N.eqb_neq; cbn; lia
        | unfold range; apply andb_false_iff; rewrite !N.leb_gt; cbn; lia ].

Lemma re_m_zpad2 k n rest r :
  1 <= n <= 12 -> k (zpad2 n) rest = Some r -> re_m k (zpad2 n ++ rest) = Some r.
Proof.
  intros Hn Hk. unfold re_m, zpad2, digit_char in *. cbn [app].
  destruct (N.eq_dec (n / 10) 1) as [H1 | H1].
  - apply alt_l. two_digits.
  - rewrite alt_r by no_match. apply alt_l. two_digits.
Qed.

Lemma re_d_zpad2 k n rest r :
  1 <= n <= 31 -> k (zpad2 n) rest = Some r -> re_d k (zpad2 n ++ rest) = Some r.
Proof.
  intros Hn Hk. unfold re_d, zpad2, digit_char in *. cbn [app].
  destruct (N.eq_dec (n / 10) 3) as [H3 | H3].
  - apply alt_l. two_digits.
  - rewrite alt_r by no_match.
    destruct (N.eq_dec (n / 10) 0) as [H0 | H0].
    + rewrite alt_r by no_match. apply alt_l. two_digits.
    + apply alt_l. two_digits.
Qed.

Lemma re_H_zpad2 k n rest r :
  n < 24 -> k (zpad2 n) rest = Some r -> re_H k (zpad2 n ++ rest) = Some r.
Proof.
  intros Hn Hk. unfold re_H, zpad2, digit_char in *. cbn [app].
  destruct (N.eq_dec (n / 10) 2) as [H2 | H2].
  - apply alt_l. two_digits.
  - rewrite alt_r by no_match. apply alt_l. two_digits.
Qed.

Lemma re_M_zpad2 k n rest r :
  n < 60 -> k (zpad2 n) rest = Some r -> re_M k (zpad2 n ++ rest) = Some r.
Proof.
  intros Hn Hk. unfold re_M, zpad2, digit_char in *. cbn [app].
  apply alt_l. two_digits.
Qed.

Lemma re_S_zpad2 k n rest r :
  n < 60 -> k (zpad2 n) rest = Some r -> re_S k (zpad2 n ++ rest) = Some r.
Proof.
  intros Hn Hk. unfold re_S, zpad2, digit_char in *. cbn [app].
  rewrite alt_r by no_match. apply alt_l. two_digits.
Qed.
End OnPadded.

Lemma valid_datetime_bounds t :
  valid_datetime t = true ->
  (1 <= year t <= 9999) /\ (1 <= month t <= 12) /\ (1 <= day t <= 31) /\
  hour t < 24 /\ minute t < 60 /\ second t < 60 /\ microsecond t < 1000000.
Proof.
  unfold valid_datetime, valid_date, valid_time.
  rewrite !andb_true_iff, !N.leb_le, !N.ltb_lt.
  intros [[[[[[Hy1 Hy2] Hm1] Hm2] Hd1] Hd2] [[[HH HM] HS] Hus]].
  assert (days_in_month (year t) (month t) <= 31).
  { unfold days_in_month.
    repeat match goal with |- context [if ?b then _ else _] => destruct b end; lia. }
  lia.
Qed.

Lemma star_stop_zpad2 {R} (k : str -> str -> option R) acc n rest :
  n < 100 -> star is_space acc k (zpad2 n ++ rest) = k acc (zpad2 n ++ rest).
Proof.
  intros Hn. unfold zpad2. cbn [app star].
  now rewrite (is_digit_not_space (digit_char (n / 10)))
    by (apply is_digit_ascii; lia).
Qed.

Lemma time_re_strftime t :
  valid_datetime t = true ->
  time_re (strftime t) =
    Some {| g_Y := zpad4 (year t); g_m := zpad2 (month t); g_d := zpad2 (day t);
            g_H := zpad2 (hour t); g_M := zpad2 (minute t); g_S := zpad2 (second t);
            unconverted := [] |}.
Proof.
  intros Hv. apply valid_datetime_bounds in Hv.
  destruct Hv as (Hy & Hm & Hd & HH & HM & HS & _).
  unfold time_re, strftime.
  rewrite re_Y_zpad4. cbn [app]. rewrite cls_cons by reflexivity.
  apply re_m_zpad2; [assumption |]. cbn [app]. rewrite cls_cons by reflexivity.
  apply re_d_zpad2; [assumption |]. cbn [app].
  unfold plus. replace (is_space (chr " ")) with true by reflexivity.
  rewrite star_stop_zpad2 by lia.
  apply re_H_zpad2; [assumption |]. cbn [app]. rewrite cls_cons by reflexivity.
  apply re_M_zpad2; [assumption |]. cbn [app]. rewrite cls_cons by reflexivity.
  rewrite <- (app_nil_r (zpad2 (second t))) at 1.
  apply re_S_zpad2; [assumption |]. reflexivity.
Qed.

(** Parsing what [strftime] printed gives the time back, without its
    microseconds. *)
Lemma strptime_strftime t :
  valid_datetime t = true -> strptime (PStr (strftime t)) = inr (truncate t).
Proof.
  intros Hv. unfold strptime. rewrite time_re_strftime by assumption.
  cbn [unconverted g_Y g_m g_d g_H g_M g_S].
  pose proof (valid_datetime_bounds t Hv) as (Hy & Hm & Hd & HH & HM & HS & _).
  rewrite py_int_zpad4 by lia. rewrite !py_int_zpad2 by lia.
  cbn [rbind].
  unfold valid_datetime in Hv. apply andb_true_iff in Hv as [Hdate Htime].
  rewrite Hdate.
  assert (Ht : valid_time (hour t) (minute t) (second t) 0 = true).
  { unfold valid_time in *. rewrite !andb_true_iff in *.
    destruct Htime as [[[? ?] ?] _]. repeat split; assumption || reflexivity. }
  rewrite Ht. reflexivity.
Qed.

(** ** [TaskStatus], [to_dict], [from_dict] *)

Lemma TaskStatus_of_value s : TaskStatus_of (PStr (value s)) = inr s.
Proof. destruct s; reflexivity. Qed.

Lemma TaskStatus_of_inr v s : TaskStatus_of v = inr s -> v = PStr (value s).
Proof.
  unfold TaskStatus_of.
  destruct (List.find _ members) as [m |] eqn:Hf; [| discriminate].
  intros [= ->]. apply find_some in Hf as [_ Heq].
  unfold py_eq_str in Heq. destruct v; try discriminate.
  apply bool_decide_eq_true in Heq. now subst.
Qed.

Lemma to_dict_lookup (t : Task) :
  let d := match to_dict t with PDict d => d | _ => ∅ end in
  d !! k_title = Some (title t) /\
  d !! k_description = Some (description t) /\
  d !! k_status = Some (PStr (value (status t))) /\
  d !! k_created_date = Some (PStr (strftime (created_date t))) /\
  d !! k_status_changed_date = Some (PStr (strftime (status_changed_date t))).
Proof.
  cbn [to_dict]. repeat split.
  all: repeat first [ apply lookup_insert_eq
                    | rewrite lookup_insert_ne by discriminate ].
Qed.

Lemma from_dict_to_dict (t : Task) :
  valid_task t = true -> from_dict (to_dict t) = inr (truncate_task t).
Proof.
  intros Hv. apply andb_true_iff in Hv as [Hc Hs].
  pose proof (to_dict_lookup t) as (Ht & Hd & Hst & Hcd & Hsd).
  unfold from_dict, py_getitem. cbn [to_dict] in *.
  rewrite Ht, Hd, Hst, Hcd, Hsd. cbn [rbind].
  rewrite TaskStatus_of_value, !strptime_strftime by assumption.
  reflexivity.
Qed.



(** ** The time regex and the grammar of timestamps *)

Section Grammar.
Context {R : Type}.
Implicit Types (k : str -> str -> option R) (rest : str) (r : R).

Ltac spelled_by_hyps :=
  unfold spelled;
  repeat first
    [ solve [apply Exists_cons_hd; repeat constructor; assumption]
    | apply Exists_cons_tl ].

Ltac read_group :=
  intros k s r H;
  unfold alt, seq, cls in H;
  destruct s as [| a [| b rest]];
  repeat match type of H with
    | context [if ?c then _ else _] => destruct c eqn:?
    | context [match ?x with Some _ => _ | None => _ end] => destruct x eqn:?
    end;
  try discriminate;
  cbn [app] in *;
  match goal with
  | Hk : k ?m ?rest = Some ?r0 |- _ =>
      exists m, rest; split; [reflexivity |]; split;
      [spelled_by_hyps | congruence]
  end.

Lemma re_Y_reads : reads (R:=R) re_Y Y_texts.
Proof.
  intros k s r H. unfold re_Y, seq, cls in H.
  destruct s as [| a [| b [| c [| d rest]]]]; try discriminate;
    repeat match type of H with
      | context [if ?c then _ else _] => destruct c eqn:?
      end; try discriminate.
  exists [a; b; c; d], rest. split; [reflexivity |]. split; [| assumption].
  spelled_by_hyps.
Qed.

Lemma re_m_reads : reads (R:=R) re_m m_texts.
Proof. unfold re_m. read_group. Qed.

Lemma re_d_reads : reads (R:=R) re_d d_texts.
Proof. unfold re_d. read_group. Qed.

Lemma re_H_reads : reads (R:=R) re_H H_texts.
Proof. unfold re_H. read_group. Qed.

Lemma re_M_reads : reads (R:=R) re_M M_texts.
Proof. unfold re_M. read_group. Qed.

Lemma re_S_reads : reads (R:=R) re_S S_texts.
Proof. unfold re_S. read_group. Qed.
End Grammar.

Lemma not_digit_ascii c : is_digit c = false -> c < 48 \/ 57 < c.
Proof.
  intros Hc. destruct (N.lt_ge_cases c 48) as [? | Hlo]; [now left |].
  destruct (N.lt_ge_cases 57 c) as [? | Hhi]; [now right |].
  replace c with (48 + (c - 48)) in Hc by lia.
  rewrite is_digit_ascii in Hc by lia. discriminate.
Qed.

Section Finding.
Context {R : Type}.
Implicit Types (k : str -> str -> option R) (rest : str) (r : R).

Ltac spellings H :=
  unfold spelled in H;
  repeat match type of H with
    | Exists _ (_ :: _) => apply Exists_cons in H as [H | H]
    | Exists _ [] => apply Exists_nil in H; destruct H
    end.

Ltac classes H :=
  unfold spelling in H;
  repeat match type of H with
    | Forall2 _ (_ :: _) _ =>
        let c := fresh "c" in let Hc := fresh "Hc" in
        apply Forall2_cons_inv_l in H as (c & ? & Hc & H & ->)
    | Forall2 _ [] _ => apply Forall2_nil_inv_l in H as ->
    end.

Ltac arith_of H :=
  first
    [ apply not_digit_ascii in H
    | unfold one, chr in H; simpl N_of_ascii in H;
      first [apply N.eqb_eq in H | apply N.eqb_neq in H]
    | unfold range, chr in H; simpl N_of_ascii in H;
      first [ apply andb_true_iff in H; rewrite !N.leb_le in H
            | apply andb_false_iff in H; rewrite !N.leb_gt in H ]
    | clear H ].

Ltac absurd_classes :=
  try congruence;
  exfalso;
  repeat match goal with
    | H : is_digit _ = true, H' : is_digit _ = false |- _ =>
        rewrite H in H'; discriminate
    end;
  repeat match goal with
    | H : _ = true |- _ => arith_of H
    | H : _ = false |- _ => arith_of H
    end;
  lia.

Ltac run_group Hk :=
  unfold alt, seq, cls; cbn [app];
  repeat first
    [ progress cbn [app]
    | rewrite Hk
    | match goal with
      | |- context [if ?c then _ else _] => destruct c eqn:?
      | |- context [match ?x with Some _ => _ | None => _ end] =>
          destruct x eqn:?
      end ];
  first [reflexivity | absurd_classes].

Ltac find_group :=
  intros k m rest r Hm Hst Hk;
  unfold Y_texts, m_texts, d_texts, H_texts, M_texts, S_texts in Hm;
  spellings Hm; classes Hm;
  destruct rest as [| ahead rest]; cbn [no_digit_ahead] in Hst;
  run_group Hk.

Lemma re_Y_finds : finds (R:=R) re_Y Y_texts.
Proof. unfold re_Y. find_group. Qed.

Lemma re_m_finds : finds (R:=R) re_m m_texts.
Proof. unfold re_m. find_group. Qed.

Lemma re_d_finds : finds (R:=R) re_d d_texts.
Proof. unfold re_d. find_group. Qed.

Lemma re_H_finds : finds (R:=R) re_H H_texts.
Proof. unfold re_H. find_group. Qed.

Lemma re_M_finds : finds (R:=R) re_M M_texts.
Proof. unfold re_M. find_group. Qed.

Lemma re_S_finds : finds (R:=R) re_S S_texts.
Proof. unfold re_S. find_group. Qed.
End Finding.

Section Whitespace.
Context {R : Type}.
Implicit Types (k : str -> str -> option R) (rest : str) (r : R).

Lemma star_reads (p : N -> bool) k s : forall acc r,
  star p acc k s = Some r ->
  exists ws rest, s = ws ++ rest /\ Forall (fun c => p c = true) ws /\
                  k (acc ++ ws) rest = Some r.
Proof.
  induction s as [| c s IH]; intros acc r H; cbn [star] in H.
  - exists [], []. repeat split; [constructor | now rewrite app_nil_r].
  - destruct (p c) eqn:Hc.
    + destruct (star p (acc ++ [c]) k s) as [r' |] eqn:Hs.
      * injection H as ->. apply IH in Hs as (ws & rest & -> & Hws & Hk).
        exists (c :: ws), rest. rewrite <- app_assoc in Hk. cbn [app] in Hk.
        repeat split; [constructor |]; assumption.
      * exists [], (c :: s). repeat split; [constructor | now rewrite app_nil_r].
    + exists [], (c :: s). repeat split; [constructor | now rewrite app_nil_r].
Qed.

Lemma plus_reads (p : N -> bool) k s r :
  plus p k s = Some r ->
  exists ws rest, s = ws ++ rest /\
                  (ws <> [] /\ Forall (fun c => p c = true) ws) /\
                  k ws rest = Some r.
Proof.
  unfold plus. destruct s as [| c s]; [discriminate |].
  destruct (p c) eqn:Hc; [| discriminate].
  intros H. apply star_reads in H as (ws & rest & -> & Hws & Hk).
  exists (c :: ws), rest. cbn [app] in Hk.
  repeat split; [discriminate | constructor |]; assumption.
Qed.

Lemma star_finds (p : N -> bool) k ws rest r : forall acc,
  Forall (fun c => p c = true) ws ->
  match rest with [] => True | c :: _ => p c = false end ->
  k (acc ++ ws) rest = Some r ->
  star p acc k (ws ++ rest) = Some r.
Proof.
  induction ws as [| c ws IH]; intros acc Hws Hrest Hk.
  - rewrite app_nil_r in Hk. cbn [app].
    destruct rest as [| c rest]; cbn [star]; [assumption |].
    now rewrite Hrest.
  - apply Forall_cons in Hws as [Hc Hws]. cbn [app star]. rewrite Hc.
    rewrite (IH (acc ++ [c])); [reflexivity | assumption | assumption |].
    now rewrite <- app_assoc.
Qed.

Lemma plus_finds (p : N -> bool) k ws rest r :
  ws <> [] -> Forall (fun c => p c = true) ws ->
  match rest with [] => True | c :: _ => p c = false end ->
  k ws rest = Some r ->
  plus p k (ws ++ rest) = Some r.
Proof.
  intros Hne Hws Hrest Hk. destruct ws as [| c ws]; [congruence |].
  apply Forall_cons in Hws as [Hc Hws]. cbn [app]. unfold plus. rewrite Hc.
  now apply star_finds.
Qed.

Lemma one_reads (a : ascii) k s r :
  cls (one a) k s = Some r -> exists rest, s = chr a :: rest /\ k [chr a] rest = Some r.
Proof.
  unfold cls. destruct s as [| c s]; [discriminate |].
  unfold one. destruct (N.eqb_spec c (chr a)) as [-> |]; [| discriminate].
  eauto.
Qed.

Lemma one_finds (a : ascii) k rest : cls (one a) k (chr a :: rest) = k [chr a] rest.
Proof. unfold cls, one. now rewrite N.eqb_refl. Qed.
End Whitespace.

Lemma H_text_head H :
  spelled H_texts H -> exists c H', H = c :: H' /\ is_digit c = true.
Proof.
  unfold spelled, H_texts. intros Hs.
  repeat match type of Hs with
    | Exists _ (_ :: _) => apply Exists_cons in Hs as [Hs | Hs]
    | Exists _ [] => apply Exists_nil in Hs; destruct Hs
    end;
    apply Forall2_cons_inv_l in Hs as (c & H' & Hc & _ & ->);
    exists c, H'; (split; [reflexivity |]).
  - unfold one in Hc. apply N.eqb_eq in Hc as ->. reflexivity.
  - unfold range, chr in Hc. simpl N_of_ascii in Hc.
    apply andb_true_iff in Hc as [Hlo Hhi]. apply N.leb_le in Hlo, Hhi.
    replace c with (48 + (c - 48)) by lia. apply is_digit_ascii. lia.
  - assumption.
Qed.

Lemma no_digit_ahead_space ws rest :
  ws <> [] -> Forall (fun c => is_space c = true) ws -> no_digit_ahead (ws ++ rest).
Proof.
  intros Hne Hws. destruct ws as [| c ws]; [congruence |].
  apply Forall_cons in Hws as [Hc _]. cbn. unfold is_digit.
  now rewrite (space_not_decimal c Hc).
Qed.

(** What a match of the time regex tells about the string ... *)
Lemma time_re_reads s found :
  time_re s = Some found ->
  exists ws,
    s = g_Y found ++ chr "-" :: g_m found ++ chr "-" :: g_d found ++ ws
          ++ g_H found ++ chr ":" :: g_M found ++ chr ":" :: g_S found
          ++ unconverted found /\
    spelled Y_texts (g_Y found) /\ spelled m_texts (g_m found) /\
    spelled d_texts (g_d found) /\
    (ws <> [] /\ Forall (fun c => is_space c = true) ws) /\
    spelled H_texts (g_H found) /\ spelled M_texts (g_M found) /\
    spelled S_texts (g_S found).
Proof.
  unfold time_re. intros H.
  apply re_Y_reads in H as (Y & s1 & -> & HY & H).
  apply one_reads in H as (s2 & -> & H).
  apply re_m_reads in H as (m & s3 & -> & Hm & H).
  apply one_reads in H as (s4 & -> & H).
  apply re_d_reads in H as (d & s5 & -> & Hd & H).
  apply plus_reads in H as (ws & s6 & -> & Hws & H).
  apply re_H_reads in H as (HH & s7 & -> & HHH & H).
  apply one_reads in H as (s8 & -> & H).
  apply re_M_reads in H as (M & s9 & -> & HM & H).
  apply one_reads in H as (s10 & -> & H).
  apply re_S_reads in H as (S & rest & -> & HS & H).
  injection H as <-. cbn. exists ws. repeat split; assumption || apply Hws.
Qed.

(** ... and the match it finds in a string that spells a time. *)
Lemma time_re_finds Y m d ws H M S :
  spelled Y_texts Y -> spelled m_texts m -> spelled d_texts d ->
  ws <> [] -> Forall (fun c => is_space c = true) ws ->
  spelled H_texts H -> spelled M_texts M -> spelled S_texts S ->
  time_re (Y ++ chr "-" :: m ++ chr "-" :: d ++ ws ++ H ++ chr ":" :: M ++ chr ":" :: S)
  = Some {| g_Y := Y; g_m := m; g_d := d; g_H := H; g_M := M; g_S := S;
            unconverted := [] |}.
Proof.
  intros HY Hm Hd Hne Hws HH HM HS. unfold time_re.
  apply re_Y_finds; [assumption | reflexivity |]. rewrite one_finds.
  apply re_m_finds; [assumption | reflexivity |]. rewrite one_finds.
  apply re_d_finds; [assumption | now apply no_digit_ahead_space |].
  apply plus_finds; [assumption | assumption | |].
  { destruct (H_text_head H HH) as (c & H' & -> & Hc). cbn [app].
    now apply is_digit_not_space. }
  apply re_H_finds; [assumption | reflexivity |]. rewrite one_finds.
  apply re_M_finds; [assumption | reflexivity |]. rewrite one_finds.
  rewrite <- (app_nil_r S) at 1.
  apply re_S_finds; [assumption | exact I |]. reflexivity.
Qed.

(** [strptime] reads exactly the strings that spell a time, as that time. *)
Lemma strptime_time_data s t : strptime (PStr s) = inr t <-> time_data s t.
Proof.
  unfold strptime, time_data. split.
  - destruct (time_re s) as [found |] eqn:Hre; [| discriminate].
    destruct (unconverted found) eqn:Hun; [| discriminate].
    apply time_re_reads in Hre as (ws & -> & HY & Hm & Hd & Hws & HH & HM & HS).
    rewrite Hun, app_nil_r.
    destruct (py_int (g_Y found)) as [| y] eqn:EY; [discriminate |].
    destruct (py_int (g_m found)) as [| mo] eqn:Em; [discriminate |].
    destruct (py_int (g_d found)) as [| dd] eqn:Ed; [discriminate |].
    destruct (py_int (g_H found)) as [| hh] eqn:EH; [discriminate |].
    destruct (py_int (g_M found)) as [| mi] eqn:EM; [discriminate |].
    destruct (py_int (g_S found)) as [| ss] eqn:ES; [discriminate |].
    cbn [rbind].
    destruct (valid_date y mo dd && valid_time hh mi ss 0) eqn:Hv; [| discriminate].
    intros [= <-].
    exists (g_Y found), (g_m found), (g_d found), ws,
           (g_H found), (g_M found), (g_S found).
    cbn [year month day hour minute second microsecond].
    unfold valid_datetime. cbn [year month day hour minute second microsecond].
    repeat split; assumption || apply Hws.
  - intros (Y & m & d & ws & H & M & S & -> & HY & Hm & Hd & [Hne Hws] & HH & HM & HS
            & EY & Em & Ed & EH & EM & ES & Hus & Hv).
    rewrite time_re_finds by assumption. cbn [unconverted g_Y g_m g_d g_H g_M g_S].
    rewrite EY, Em, Ed, EH, EM, ES. cbn [rbind].
    unfold valid_datetime in Hv. rewrite Hus in Hv. rewrite Hv.
    destruct t; cbn in *. now subst.
Qed.

(** ** What [from_dict] accepts *)

Lemma strptime_str v t : strptime v = inr t -> exists s, v = PStr s.
Proof. destruct v; try discriminate. eauto. Qed.

Lemma strptime_FormatError v e : strptime v = inl e -> FormatError e.
Proof.
  unfold strptime. destruct v; try (intros [= <-]; exact I).
  destruct (time_re s) as [found |]; [| intros [= <-]; exact I].
  destruct (unconverted found); [| intros [= <-]; exact I].
  unfold py_int.
  repeat match goal with
    | |- context [match ?x with _ => _ end] => destruct x; cbn [rbind]
    end;
    intros [= <-]; exact I.
Qed.

Lemma from_dict_inr (r : gmap str pyval) (t : Task) :
  from_dict (PDict r) = inr t <->
  r !! k_title = Some (title t) /\
  r !! k_description = Some (description t) /\
  r !! k_status = Some (PStr (value (status t))) /\
  (exists v, r !! k_created_date = Some v /\ strptime v = inr (created_date t)) /\
  (exists v, r !! k_status_changed_date = Some v /\
             strptime v = inr (status_changed_date t)).
Proof.
  unfold from_dict, py_getitem. split.
  - destruct (r !! k_title) as [v1 |]; [| discriminate].
    destruct (r !! k_description) as [v2 |]; [| discriminate].
    destruct (r !! k_status) as [v3 |]; [| discriminate].
    cbn [rbind].
    destruct (TaskStatus_of v3) as [| s] eqn:Hs; [discriminate |].
    destruct (r !! k_created_date) as [v4 |]; [| discriminate].
    cbn [rbind].
    destruct (strptime v4) as [| c] eqn:Hc; [discriminate |].
    destruct (r !! k_status_changed_date) as [v5 |]; [| discriminate].
    cbn [rbind].
    destruct (strptime v5) as [| sc] eqn:Hsc; [discriminate |].
    intros [= <-]. cbn. apply TaskStatus_of_inr in Hs as ->. eauto 10.
  - intros (-> & -> & -> & (v4 & -> & Hc) & (v5 & -> & Hsc)). cbn [rbind].
    rewrite TaskStatus_of_value, Hc, Hsc. now destruct t.
Qed.

Lemma from_dict_FormatError (data : pyval) e : from_dict data = inl e -> FormatError e.
Proof.
  unfold from_dict, py_getitem, TaskStatus_of.
  destruct data; try (intros [= <-]; exact I).
  repeat match goal with
    | |- context [strptime ?v] =>
        let H := fresh "Hp" in
        destruct (strptime v) eqn:H; [apply strptime_FormatError in H |]
    | |- context [match ?x with _ => _ end] => destruct x
    | _ => progress cbn [rbind]
    end;
    intros [= <-]; assumption || exact I.
Qed.

Lemma raises_iff {A} (x : result A) : raises x <-> forall a, x <> inr a.
Proof.
  unfold raises. destruct x as [e | a]; split.
  - discriminate.
  - eauto.
  - intros [? [=]].
  - intros H. now destruct (H a).
Qed.

Lemma elem_of_required k :
  k ∈ required_keys <->
  k = k_title \/ k = k_description \/ k = k_status \/
  k = k_created_date \/ k = k_status_changed_date.
Proof. unfold required_keys. rewrite !elem_of_cons, elem_of_nil. tauto. Qed.

Lemma elem_of_timestamp_keys k :
  k ∈ timestamp_keys <-> k = k_created_date \/ k = k_status_changed_date.
Proof. unfold timestamp_keys. rewrite !elem_of_cons, elem_of_nil. tauto. Qed.

(** C5, amended. Deserializing a record raises exactly when one of the five
    required keys is missing, or the status value is not one of the five
    labels, or a timestamp is not a string that reads as a time: a four-digit
    year, then month, day, hour, minute and second of one or two digits with
    [-] and [:] between them and any run of whitespace between date and time,
    naming a date and time of day that exist. What is raised is a
    FormatError, and the result is either a whole task or the exception. *)
Theorem from_dict_raises_iff (r : gmap str pyval) :
  (raises (from_dict (PDict r)) <->
     key_missing r \/ status_unknown r \/ timestamp_unreadable r) /\
  (forall e, from_dict (PDict r) = inl e -> FormatError e) /\
  (raises (from_dict (PDict r)) \/ exists t, from_dict (PDict r) = inr t).
Proof.
  split; [| split].
  - rewrite raises_iff. split.
    + intros Hno.
      destruct (r !! k_title) as [v1 |] eqn:H1;
        [| left; exists k_title; split; [apply elem_of_required; tauto | assumption]].
      destruct (r !! k_description) as [v2 |] eqn:H2;
        [| left; exists k_description; split; [apply elem_of_required; tauto | assumption]].
      destruct (r !! k_status) as [v3 |] eqn:H3;
        [| left; exists k_status; split; [apply elem_of_required; tauto | assumption]].
      destruct (r !! k_created_date) as [v4 |] eqn:H4;
        [| left; exists k_created_date; split; [apply elem_of_required; tauto | assumption]].
      destruct (r !! k_status_changed_date) as [v5 |] eqn:H5;
        [| left; exists k_status_changed_date; split;
           [apply elem_of_required; tauto | assumption]].
      right.
      destruct (TaskStatus_of v3) as [e | s] eqn:Hs.
      { left. exists v3. split; [assumption |]. intros s ->.
        rewrite TaskStatus_of_value in Hs. discriminate. }
      apply TaskStatus_of_inr in Hs as ->.
      right.
      destruct (strptime v4) as [e | c] eqn:Hc.
      { exists k_created_date, v4.
        split; [apply elem_of_timestamp_keys; tauto |]. split; [assumption |].
        intros txt t -> Ht. apply strptime_time_data in Ht. congruence. }
      destruct (strptime v5) as [e | sc] eqn:Hsc.
      { exists k_status_changed_date, v5.
        split; [apply elem_of_timestamp_keys; tauto |]. split; [assumption |].
        intros txt t -> Ht. apply strptime_time_data in Ht. congruence. }
      exfalso.
      apply (Hno {| title := v1; description := v2; status := s;
                    created_date := c; status_changed_date := sc |}).
      apply from_dict_inr. cbn. eauto 10.
    + intros Hbad t Ht. apply from_dict_inr in Ht as (H1 & H2 & H3 & H4 & H5).
      destruct H4 as (v4 & H4 & Hc). destruct H5 as (v5 & H5 & Hsc).
      destruct Hbad as [(k & Hk & Hnone) | [(v & Hv & Hno) | (k & v & Hk & Hv & Hno)]].
      * apply elem_of_required in Hk as [-> | [-> | [-> | [-> | ->]]]]; congruence.
      * rewrite H3 in Hv. injection Hv as <-. now apply (Hno (status t)).
      * apply elem_of_timestamp_keys in Hk as [-> | ->].
        -- rewrite H4 in Hv. injection Hv as <-.
           destruct (strptime_str _ _ Hc) as (txt & ->).
           apply (Hno txt (created_date t)); [reflexivity |].
           now apply strptime_time_data.
        -- rewrite H5 in Hv. injection Hv as <-.
           destruct (strptime_str _ _ Hsc) as (txt & ->).
           apply (Hno txt (status_changed_date t)); [reflexivity |].
           now apply strptime_time_data.
  - intros e. apply from_dict_FormatError.
  - unfold raises. destruct (from_dict (PDict r)); eauto.
Qed.

Lemma from_dict_raises_iff_witness :
  raises (from_dict (PDict (delete k_title lenient_record))).
Proof.
  apply (proj1 (from_dict_raises_iff (delete k_title lenient_record))).
  left. exists k_title. split; [apply elem_of_required; tauto |].
  apply lookup_delete_eq.
Defined.

Lemma lenient_record_from_dict : from_dict (PDict lenient_record) = inr lenient_task.
Proof. vm_compute. reflexivity. Qed.

Lemma lenient_record_inexact : timestamp_inexact lenient_record.
Proof.
  exists k_created_date, (PStr (lit "2024-1-5 3:4:5")).
  split; [apply elem_of_timestamp_keys; tauto |]. split.
  - vm_compute. reflexivity.
  - intros s [= <-]. vm_compute. reflexivity.
Qed.

(** C5 as stated fails: a record whose [created_date] is ["2024-1-5 3:4:5"]
    is not in the exact format, and [from_dict] returns a task for it. *)
Lemma from_dict_accepts_inexact_timestamp :
  ~ (raises (from_dict (PDict lenient_record)) <->
       key_missing lenient_record \/ status_unknown lenient_record \/
       timestamp_inexact lenient_record).
Proof.
  intros [_ H].
  destruct H as [e He]; [right; right; exact lenient_record_inexact |].
  rewrite lenient_record_from_dict in He. discriminate.
Qed.

(** The exact format alone does not make a timestamp readable either: the
    thirtieth of February is spelled in it, and [from_dict] raises on it. *)
Lemma from_dict_rejects_february_30 :
  from_dict (PDict february_30_record) = inl (ValueError out_of_range) /\
  ~ (key_missing february_30_record \/ status_unknown february_30_record \/
     timestamp_inexact february_30_record).
Proof.
  split; [vm_compute; reflexivity |].
  intros [(k & Hk & Hnone) | [(v & Hv & Hno) | (k & v & Hk & Hv & Hno)]].
  - apply elem_of_required in Hk as [-> | [-> | [-> | [-> | ->]]]];
      vm_compute in Hnone; discriminate.
  - vm_compute in Hv. injection Hv as <-. now apply (Hno NEW).
  - apply elem_of_timestamp_keys in Hk as [-> | ->];
      vm_compute in Hv; injection Hv as <-;
      specialize (Hno _ eq_refl); vm_compute in Hno; discriminate.
Qed.

Example from_dict_missing_title :
  from_dict (PDict (delete k_title lenient_record)) = inl (KeyError k_title).
Proof. vm_compute. reflexivity. Qed.

Example from_dict_unknown_label :
  from_dict (PDict (<[k_status := PStr (lit "unknown-label")]> lenient_record))
  = inl (ValueError (not_a_valid_TaskStatus (PStr (lit "unknown-label")))).
Proof. vm_compute. reflexivity. Qed.

(** The symbolic name of a member is not its value. *)
Example from_dict_symbolic_name :
  from_dict (PDict (<[k_status := PStr (lit "NEW")]> lenient_record))
  = inl (ValueError (not_a_valid_TaskStatus (PStr (lit "NEW")))).
Proof. vm_compute. reflexivity. Qed.

Example from_dict_timestamp_not_a_string :
  from_dict (PDict (<[k_created_date := PInt 20240105]> lenient_record)) = inl TypeError.
Proof. vm_compute. reflexivity. Qed.

(** ** Keys [from_dict] does not read *)

Lemma restrict_lookup (r : gmap str pyval) k :
  k ∈ required_keys -> restrict r !! k = r !! k.
Proof.
  intros Hk. unfold restrict. rewrite map_lookup_filter.
  destruct (r !! k) as [v |]; [| reflexivity].
  cbn. rewrite option_guard_True by assumption. reflexivity.
Qed.

Lemma from_dict_lookups (r r' : gmap str pyval) :
  (forall k, k ∈ required_keys -> r' !! k = r !! k) ->
  from_dict (PDict r') = from_dict (PDict r).
Proof.
  intros H. unfold from_dict, py_getitem.
  rewrite !H by (apply elem_of_required; tauto). reflexivity.
Qed.

Lemma from_dict_restrict (r : gmap str pyval) :
  from_dict (PDict (restrict r)) = from_dict (PDict r).
Proof. apply from_dict_lookups. intros k. apply restrict_lookup. Qed.

(** C10. When a record with the five required keys deserializes to a task,
    the record with any further key/value pairs added deserializes without
    error to the same task, and so does the extended record cut down to the
    five required keys. *)
Theorem from_dict_ignores_unknown_keys (r extra : gmap str pyval) (t : Task) :
  from_dict (PDict r) = inr t ->
  from_dict (PDict (r ∪ extra)) = inr t /\
  from_dict (PDict (restrict (r ∪ extra))) = inr t.
Proof.
  intros Ht.
  assert (Hext : from_dict (PDict (r ∪ extra)) = inr t).
  { rewrite <- Ht. apply from_dict_lookups. intros k Hk.
    apply from_dict_inr in Ht as (H1 & H2 & H3 & (v4 & H4 & _) & (v5 & H5 & _)).
    apply elem_of_required in Hk as [-> | [-> | [-> | [-> | ->]]]];
      erewrite lookup_union_Some_l; eauto. }
  split; [assumption |]. now rewrite from_dict_restrict.
Qed.

Lemma from_dict_ignores_unknown_keys_witness :
  from_dict (PDict lenient_record) = inr lenient_task /\
  from_dict (PDict (lenient_record ∪ extra_keys)) = inr lenient_task /\
  from_dict (PDict (restrict (lenient_record ∪ extra_keys))) = inr lenient_task.
Proof.
  split; [vm_compute; reflexivity |].
  apply (from_dict_ignores_unknown_keys lenient_record extra_keys lenient_task).
  vm_compute. reflexivity.
Defined.


(** * The task manager *)

(** ** [add_task] *)

Lemma add_task_run (task : Task) (st : State) :
  add_task task st =
    (inr tt,
     {| self := {| tasks := tasks (self st) ++ [task];
                   history := history (self st)
                     ++ [[Text (lit "Добавлена задача: "); Interp (title task)]] |};
        clock := clock st; ticks := ticks st;
        files := files st; writable := writable st |}).
Proof. reflexivity. Qed.

Lemma main_add_run (title description : str) (st : State) :
  main_add title description st =
    (inr tt,
     {| self :=
          {| tasks := tasks (self st) ++
               [{| title := PStr title; description := PStr description;
                   status := NEW;
                   created_date := clock st (ticks st);
                   status_changed_date := clock st (S (ticks st)) |}];
             history := history (self st)
               ++ [[Text (lit "Добавлена задача: "); Interp (PStr title)]] |};
        clock := clock st; ticks := S (S (ticks st));
        files := files st; writable := writable st |}).
Proof. reflexivity. Qed.

Lemma add_all_run (calls : list (str * str)) : forall st,
  exists st',
    add_all calls st = (inr tt, st') /\
    length (tasks (self st')) = (length (tasks (self st)) + length calls)%nat /\
    length (history (self st')) = (length (history (self st)) + length calls)%nat.
Proof.
  induction calls as [| [title description] calls IH]; intros st.
  - exists st. cbn. repeat split; lia.
  - cbn [add_all]. unfold bind. rewrite main_add_run.
    edestruct IH as (st' & -> & Ht & Hh). exists st'.
    split; [reflexivity |]. cbn in Ht, Hh. rewrite !length_app in Ht, Hh.
    cbn in *. lia.
Qed.

(** C7. AddTask is never rejected. Whatever the store and the titles, a call
    succeeds and appends exactly one task and exactly one history entry; after
    N calls the task count and the history count have both grown by N. *)
Theorem add_task_never_rejected :
  (forall (task : Task) (st : State),
     exists st', add_task task st = (inr tt, st') /\
       tasks (self st') = tasks (self st) ++ [task] /\
       exists entry, history (self st') = history (self st) ++ [entry]) /\
  (forall (title description : str) (st : State),
     exists st' task entry, main_add title description st = (inr tt, st') /\
       tasks (self st') = tasks (self st) ++ [task] /\
       history (self st') = history (self st) ++ [entry]) /\
  (forall (calls : list (str * str)) (st : State),
     exists st', add_all calls st = (inr tt, st') /\
       length (tasks (self st')) = (length (tasks (self st)) + length calls)%nat /\
       length (history (self st')) = (length (history (self st)) + length calls)%nat).
Proof.
  split; [| split].
  - intros task st. rewrite add_task_run. eexists. split; [reflexivity |].
    cbn. eauto.
  - intros title description st. rewrite main_add_run.
    eexists _, _, _. split; [reflexivity |]. cbn. eauto.
  - intros calls st. apply add_all_run.
Qed.

(** C8, amended. AddTask appends a task with status New whose created_date
    is the clock reading taken first and whose status_changed_date is the
    reading taken next, so the two dates are equal exactly when the two
    readings are. *)
Theorem main_add_timestamps (title description : str) (st : State) :
  exists st',
    main_add title description st = (inr tt, st') /\
    tasks (self st') = tasks (self st) ++
      [{| title := PStr title; description := PStr description;
          status := NEW;
          created_date := clock st (ticks st);
          status_changed_date := clock st (S (ticks st)) |}] /\
    ticks st' = S (S (ticks st)).
Proof. rewrite main_add_run. eexists. repeat split. Qed.

(** C8 as stated fails: the clock is read twice, and on a clock that moves
    between the readings the new task's status_changed_date is not its
    created_date. *)
Lemma main_add_dates_differ :
  exists task,
    tasks (self (snd (main_add (lit "Write spec") (lit "") (state_of [])))) = [task] /\
    status task = NEW /\
    status_changed_date task <> created_date task.
Proof. eexists. split; [reflexivity |]. split; [reflexivity | discriminate]. Qed.

(** ** [change_task_status] *)

Lemma change_loop_found (task_title : str) (new_status : TaskStatus) :
  forall (ts : list Task) (i k : nat) (task : Task) (st : State),
    ts !! k = Some task ->
    py_eq_str (title task) task_title = true ->
    (forall j other, (j < k)%nat -> ts !! j = Some other ->
                     py_eq_str (title other) task_title = false) ->
    change_task_status_loop i ts task_title new_status st =
      (inr tt,
       {| self :=
            {| tasks := alter (set_status_changed_date (clock st (ticks st))) (i + k)%nat
                          (alter (set_status new_status) (i + k)%nat (tasks (self st)));
               history := history (self st) ++
                 [[Text (lit "Статус задачи '"); Interp (title task);
                   Text (lit "' изменен на '"); Interp (PStr (value new_status));
                   Text (lit "'")]] |};
          clock := clock st; ticks := S (ticks st);
          files := files st; writable := writable st |}).
Proof.
  induction ts as [| head ts IH]; intros i k task st Hk Hm Hbefore.
  - discriminate.
  - destruct k as [| k]; cbn [change_task_status_loop].
    + injection Hk as ->. rewrite Hm, Nat.add_0_r. reflexivity.
    + rewrite (Hbefore 0%nat head) by (lia || reflexivity).
      rewrite (IH (S i) k task st Hk Hm).
      * now rewrite Nat.add_succ_comm.
      * intros j other Hj Hother. apply (Hbefore (S j) other); [lia | exact Hother].
Qed.

Lemma change_loop_not_found (task_title : str) (new_status : TaskStatus) :
  forall (ts : list Task) (i : nat) (st : State),
    Forall (fun task => py_eq_str (title task) task_title = false) ts ->
    change_task_status_loop i ts task_title new_status st =
      (inl (NotFoundError task_title), st).
Proof.
  induction ts as [| head ts IH]; intros i st Hts.
  - reflexivity.
  - apply Forall_cons in Hts as [Hhead Hts]. cbn [change_task_status_loop].
    rewrite Hhead. now apply IH.
Qed.

Lemma changed_alter (new_status : TaskStatus) (t : datetime) (i : nat) (ts : list Task) :
  alter (set_status_changed_date t) i (alter (set_status new_status) i ts)
  = alter (changed new_status t) i ts.
Proof. rewrite list_alter_alter_eq. apply list_alter_ext; reflexivity. Qed.

Lemma change_task_status_found (task_title : str) (new_status : TaskStatus)
    (i : nat) (task : Task) (st : State) :
  tasks (self st) !! i = Some task ->
  py_eq_str (title task) task_title = true ->
  (forall j other, (j < i)%nat -> tasks (self st) !! j = Some other ->
                   py_eq_str (title other) task_title = false) ->
  change_task_status task_title new_status st =
    (inr tt,
     {| self :=
          {| tasks := alter (changed new_status (clock st (ticks st))) i (tasks (self st));
             history := history (self st) ++
               [[Text (lit "Статус задачи '"); Interp (title task);
                 Text (lit "' изменен на '"); Interp (PStr (value new_status));
                 Text (lit "'")]] |};
        clock := clock st; ticks := S (ticks st);
        files := files st; writable := writable st |}).
Proof.
  intros Hi Hm Hbefore. unfold change_task_status, bind, get_self.
  rewrite (change_loop_found task_title new_status _ 0 i task st Hi Hm Hbefore).
  cbn [Nat.add]. now rewrite changed_alter.
Qed.

Lemma change_task_status_not_found (task_title : str) (new_status : TaskStatus)
    (st : State) :
  Forall (fun task => py_eq_str (title task) task_title = false) (tasks (self st)) ->
  change_task_status task_title new_status st = (inl (NotFoundError task_title), st).
Proof.
  intros Hts. unfold change_task_status, bind, get_self.
  now rewrite change_loop_not_found.
Qed.

(** C3. When the first task whose title equals the argument is at position
    [i], ChangeStatus succeeds, the task at [i] gets the new status and the
    current time as its status_changed_date and keeps its title, description
    and created_date, and the task at every other position — later tasks of the
    same title included — is what it was. *)
Theorem change_task_status_frame (task_title : str) (new_status : TaskStatus)
    (i : nat) (task : Task) (st : State) :
  tasks (self st) !! i = Some task ->
  py_eq_str (title task) task_title = true ->
  (forall j other, (j < i)%nat -> tasks (self st) !! j = Some other ->
                   py_eq_str (title other) task_title = false) ->
  exists st',
    change_task_status task_title new_status st = (inr tt, st') /\
    tasks (self st') !! i =
      Some {| title := title task; description := description task;
              status := new_status;
              created_date := created_date task;
              status_changed_date := clock st (ticks st) |} /\
    (forall j, j <> i -> tasks (self st') !! j = tasks (self st) !! j) /\
    length (tasks (self st')) = length (tasks (self st)).
Proof.
  intros Hi Hm Hbefore.
  rewrite (change_task_status_found _ _ i task st Hi Hm Hbefore).
  eexists. split; [reflexivity |]. cbn [self tasks]. split; [| split].
  - rewrite list_lookup_alter_eq, Hi. reflexivity.
  - intros j Hj. now rewrite list_lookup_alter_ne by congruence.
  - apply length_alter.
Qed.

Lemma change_task_status_frame_witness :
  exists st',
    change_task_status (lit "Write spec") COMPLETED
      (state_of [other_task; sample_task; sample_task]) = (inr tt, st') /\
    tasks (self st') !! 1%nat =
      Some {| title := title sample_task; description := description sample_task;
              status := COMPLETED;
              created_date := created_date sample_task;
              status_changed_date := ticking_clock 0 |} /\
    (forall j, j <> 1%nat ->
       tasks (self st') !! j = [other_task; sample_task; sample_task] !! j) /\
    length (tasks (self st')) = 3%nat.
Proof.
  apply (change_task_status_frame (lit "Write spec") COMPLETED 1 sample_task
           (state_of [other_task; sample_task; sample_task])).
  - reflexivity.
  - reflexivity.
  - intros [| j] other Hj; [intros [= <-]; reflexivity | lia].
Defined.

(** C4. When no task's title equals the argument, ChangeStatus raises the
    NotFoundError and leaves everything as it was: the same tasks, none of
    them touched, the same history. *)
Theorem change_task_status_missing (task_title : str) (new_status : TaskStatus)
    (st : State) :
  Forall (fun task => py_eq_str (title task) task_title = false) (tasks (self st)) ->
  change_task_status task_title new_status st = (inl (NotFoundError task_title), st).
Proof. apply change_task_status_not_found. Qed.

Lemma change_task_status_missing_witness :
  change_task_status (lit "Deploy") COMPLETED (state_of [other_task; sample_task])
  = (inl (NotFoundError (lit "Deploy")), state_of [other_task; sample_task]).
Proof.
  apply (change_task_status_missing (lit "Deploy") COMPLETED
           (state_of [other_task; sample_task])).
  repeat constructor.
Defined.

(** C9. CancelTask(title) does what ChangeStatus(title, Canceled) does: from
    every state the two give the same outcome - success or the same exception -
    and leave the same tasks, history and surroundings; on a title that no
    task has, that is the NotFoundError with nothing changed. *)
Theorem cancel_task_is_change_to_canceled (task_title : str) (st : State) :
  cancel_task task_title st = change_task_status task_title CANCELED st /\
  (Forall (fun task => py_eq_str (title task) task_title = false) (tasks (self st)) ->
   cancel_task task_title st = (inl (NotFoundError task_title), st)).
Proof. split; [reflexivity | apply change_task_status_not_found]. Qed.

Lemma cancel_task_is_change_to_canceled_witness :
  cancel_task (lit "Review") (state_of [other_task; sample_task])
  = change_task_status (lit "Review") CANCELED (state_of [other_task; sample_task]) /\
  cancel_task (lit "Deploy") (state_of [other_task; sample_task])
  = (inl (NotFoundError (lit "Deploy")), state_of [other_task; sample_task]).
Proof.
  split.
  - apply (proj1 (cancel_task_is_change_to_canceled (lit "Review")
                    (state_of [other_task; sample_task]))).
  - apply (proj2 (cancel_task_is_change_to_canceled (lit "Deploy")
                    (state_of [other_task; sample_task]))).
    repeat constructor.
Defined.

Example cancel_task_sets_canceled :
  List.map status
    (tasks (self (snd (cancel_task (lit "Review") (state_of [other_task; sample_task])))))
  = [CANCELED; NEW].
Proof. reflexivity. Qed.

(** ** [save_to_file] and [load_from_file] *)

Lemma load_from_file_run (file_path : str) (st : State) :
  load_from_file file_path st =
    match files st !! file_path with
    | None => (inl FileNotFoundError, st)
    | Some NotJSON => (inl (ValueError JSONDecodeError), st)
    | Some (JSON data) =>
        ((tasks_data <- py_get data k_tasks (PList []) ;;
          items <- py_iter tasks_data ;;
          tasks <- mapR from_dict items ;;
          inr (TaskManager_init (Some tasks)))%result, st)
    end.
Proof.
  unfold load_from_file, bind, json_load, lift, ret.
  destruct (files st !! file_path) as [[| data] |]; try reflexivity.
  destruct (py_get data k_tasks (PList [])) as [| tasks_data]; [reflexivity |].
  cbn [rbind].
  destruct (py_iter tasks_data) as [| items]; [reflexivity |].
  cbn [rbind].
  destruct (mapR from_dict items); reflexivity.
Qed.

Lemma TaskManager_init_tasks (ts : list Task) : tasks (TaskManager_init (Some ts)) = ts.
Proof. now destruct ts. Qed.



Lemma mapR_from_dict_to_dict (ts : list Task) :
  Forall (fun t => valid_task t = true) ts ->
  mapR from_dict (List.map to_dict ts) = inr (List.map truncate_task ts).
Proof.
  induction 1 as [| t ts Ht _ IH]; [reflexivity |].
  cbn [List.map mapR]. now rewrite from_dict_to_dict, IH.
Qed.



Lemma save_then_load (file_path : str) (st : State) :
  writable st file_path = true ->
  Forall (fun t => valid_task t = true) (tasks (self st)) ->
  exists st',
    save_to_file file_path st = (inr tt, st') /\
    load_from_file file_path st' =
      (inr {| tasks := List.map truncate_task (tasks (self st)); history := [] |}, st').
Proof.
  intros Hw Hv. unfold save_to_file, bind, get_self, json_dump. rewrite Hw.
  eexists. split; [reflexivity |].
  rewrite load_from_file_run. cbn [files]. rewrite lookup_insert_eq.
  unfold py_get. rewrite lookup_singleton_eq. cbn [rbind py_iter].
  rewrite mapR_from_dict_to_dict by assumption. cbn [rbind].
  unfold TaskManager_init. now destruct (tasks (self st)).
Qed.





(** The scenario of the specification: one task, moved to In Progress, saved
    and loaded, comes back as one task In Progress with its title, description
    and created_date. *)
Example change_save_load :
  let st1 := snd (change_task_status (lit "Write spec") IN_PROGRESS
                    (state_of [sample_task])) in
  let st2 := snd (save_to_file (lit "tasks.json") st1) in
  fst (load_from_file (lit "tasks.json") st2) =
    inr {| tasks := [ {| title := title sample_task;
                         description := description sample_task;
                         status := IN_PROGRESS;
                         created_date := created_date sample_task;
                         status_changed_date := ticking_clock 0 |} ];
           history := [] |}.
Proof. vm_compute. reflexivity. Qed.

(** A document that is not an object has no [get]: Load raises. *)
Example load_from_file_not_an_object :
  fst (load_from_file (lit "tasks.json") (state_with_file (PList []))) = inl AttributeError.
Proof. vm_compute. reflexivity. Qed.

(** A file that is not there, as the menu loop expects it on a first run. *)
Example load_from_file_missing :
  fst (load_from_file (lit "tasks.json") (state_of [])) = inl FileNotFoundError.
Proof. vm_compute. reflexivity. Qed.

(** * Further properties of the code *)

(** ** [TaskStatus]: values and names *)

(** X1. Looking a member up by value undoes taking its value, and nothing
    else is a value: [TaskStatus(v)] returns [s] exactly when [v] is the label
    of [s]; the five labels are pairwise different. *)
Theorem TaskStatus_value_round_trip :
  (forall (v : pyval) (s : TaskStatus), TaskStatus_of v = inr s <-> v = PStr (value s)) /\
  (forall s s' : TaskStatus, value s = value s' -> s = s').
Proof.
  split.
  - intros v s. split; [apply TaskStatus_of_inr |].
    intros ->. apply TaskStatus_of_value.
  - intros s s' H. destruct s, s'; reflexivity || discriminate.
Qed.

Lemma TaskStatus_by_name_name s : TaskStatus_by_name (name s) = inr s.
Proof. destruct s; reflexivity. Qed.

Lemma TaskStatus_by_name_inr n s : TaskStatus_by_name n = inr s -> n = name s.
Proof.
  unfold TaskStatus_by_name.
  destruct (List.find _ members) as [m |] eqn:Hf; [| discriminate].
  intros [= ->]. apply find_some in Hf as [_ Heq].
  apply bool_decide_eq_true in Heq. now subst.
Qed.

(** X2. Looking a member up by name undoes taking its name. Names and
    labels do not mix: no label is accepted as a name and no name as a
    label, so the menu wants [NEW] where the file wants the label of [NEW]. *)
Theorem TaskStatus_names_and_values :
  (forall (n : str) (s : TaskStatus), TaskStatus_by_name n = inr s <-> n = name s) /\
  (forall s : TaskStatus, TaskStatus_by_name (value s) = inl (KeyError (value s))) /\
  (forall s : TaskStatus,
     TaskStatus_of (PStr (name s)) = inl (ValueError (not_a_valid_TaskStatus (PStr (name s))))).
Proof.
  split; [| split].
  - intros n s. split; [apply TaskStatus_by_name_inr |].
    intros ->. apply TaskStatus_by_name_name.
  - intros s. destruct s; reflexivity.
  - intros s. destruct s; reflexivity.
Qed.

(** ** [to_dict] and [from_dict] *)







Lemma strptime_not_KeyError v k : strptime v <> inl (KeyError k).
Proof.
  intros H. apply strptime_FormatError in H as HF.
  destruct v; try discriminate. unfold strptime, py_int in H.
  repeat match type of H with
    | context [match ?x with _ => _ end] => destruct x; cbn [rbind] in H
    end; discriminate.
Qed.

(** X5. A [KeyError] of [from_dict] names the first required key, in the
    order title, description, status, created_date, status_changed_date, that
    the record lacks; and data that is no dict at all raises [TypeError]. *)
Theorem from_dict_KeyError_first_missing :
  (forall (r : gmap str pyval) (k : str),
     from_dict (PDict r) = inl (KeyError k) ->
     exists before after,
       required_keys = before ++ k :: after /\
       r !! k = None /\
       Forall (fun k' => is_Some (r !! k')) before) /\
  (forall data : pyval,
     (forall r, data <> PDict r) -> from_dict data = inl TypeError).
Proof.
  split.
  - intros r k. unfold from_dict, py_getitem, TaskStatus_of, required_keys.
    destruct (r !! k_title) as [v1 |] eqn:H1;
      [| intros [= <-]; exists [], [k_description; k_status; k_created_date;
                                    k_status_changed_date]; auto].
    destruct (r !! k_description) as [v2 |] eqn:H2;
      [| intros [= <-]; exists [k_title], [k_status; k_created_date;
                                           k_status_changed_date];
         repeat split; auto; repeat constructor; eauto].
    destruct (r !! k_status) as [v3 |] eqn:H3;
      [| intros [= <-]; exists [k_title; k_description],
                               [k_created_date; k_status_changed_date];
         repeat split; auto; repeat constructor; eauto].
    cbn [rbind]. destruct (List.find _ members); [| discriminate]. cbn [rbind].
    destruct (r !! k_created_date) as [v4 |] eqn:H4;
      [| intros [= <-]; exists [k_title; k_description; k_status],
                               [k_status_changed_date];
         repeat split; auto; repeat constructor; eauto].
    cbn [rbind]. destruct (strptime v4) as [e |] eqn:Hc.
    { intros [= ->]. now apply strptime_not_KeyError in Hc. }
    cbn [rbind].
    destruct (r !! k_status_changed_date) as [v5 |] eqn:H5;
      [| intros [= <-]; exists [k_title; k_description; k_status; k_created_date], [];
         repeat split; auto; repeat constructor; eauto].
    cbn [rbind]. destruct (strptime v5) as [e |] eqn:Hsc; [| discriminate].
    intros [= ->]. now apply strptime_not_KeyError in Hsc.
  - intros data Hnd. destruct data; try reflexivity. now destruct (Hnd d).
Qed.

Lemma from_dict_KeyError_first_missing_witness :
  exists before after,
    required_keys = before ++ k_status :: after /\
    delete k_status (delete k_status_changed_date lenient_record) !! k_status = None /\
    Forall (fun k' => is_Some (delete k_status
                                (delete k_status_changed_date lenient_record) !! k'))
           before.
Proof.
  apply (proj1 from_dict_KeyError_first_missing
           (delete k_status (delete k_status_changed_date lenient_record)) k_status).
  vm_compute. reflexivity.
Defined.

(** ** [change_task_status]: every outcome *)

Lemma first_match (task_title : str) (ts : list Task) :
  Forall (fun task => py_eq_str (title task) task_title = false) ts \/
  exists i task,
    ts !! i = Some task /\ py_eq_str (title task) task_title = true /\
    forall j other, (j < i)%nat -> ts !! j = Some other ->
                    py_eq_str (title other) task_title = false.
Proof.
  induction ts as [| head ts IH].
  - left. constructor.
  - destruct (py_eq_str (title head) task_title) eqn:Hh.
    + right. exists 0%nat, head. repeat split; [assumption | lia].
    + destruct IH as [Hall | (i & task & Hi & Hm & Hb)].
      * left. now constructor.
      * right. exists (S i), task. repeat split; [assumption | assumption |].
        intros [| j] other Hj Ho; [now injection Ho as <- |].
        apply (Hb j other); [lia | assumption].
Qed.

(** The two ways a status change can go. *)
Lemma change_task_status_cases (task_title : str) (new_status : TaskStatus) (st : State) :
  (Forall (fun task => py_eq_str (title task) task_title = false) (tasks (self st)) /\
   change_task_status task_title new_status st = (inl (NotFoundError task_title), st))
  \/
  (exists i task,
     tasks (self st) !! i = Some task /\
     py_eq_str (title task) task_title = true /\
     (forall j other, (j < i)%nat -> tasks (self st) !! j = Some other ->
                      py_eq_str (title other) task_title = false) /\
     change_task_status task_title new_status st =
       (inr tt,
        {| self :=
             {| tasks := alter (changed new_status (clock st (ticks st))) i
                           (tasks (self st));
                history := history (self st) ++
                  [[Text (lit "Статус задачи '"); Interp (title task);
                    Text (lit "' изменен на '"); Interp (PStr (value new_status));
                    Text (lit "'")]] |};
           clock := clock st; ticks := S (ticks st);
           files := files st; writable := writable st |})).
Proof.
  destruct (first_match task_title (tasks (self st))) as [Hall | (i & task & Hi & Hm & Hb)].
  - left. split; [assumption |]. now apply change_task_status_not_found.
  - right. exists i, task. repeat split; try assumption.
    now apply change_task_status_found.
Qed.

Lemma identity_of_alter (f : Task -> Task) (i : nat) (ts : list Task) :
  (forall task, identity_of (f task) = identity_of task) ->
  List.map identity_of (alter f i ts) = List.map identity_of ts.
Proof.
  intros Hf. revert i. induction ts as [| head ts IH]; intros [| i]; cbn;
    rewrite ?Hf, ?IH; reflexivity.
Qed.

Lemma py_eq_str_not_str (v : pyval) (s : str) :
  (forall s', v <> PStr s') -> py_eq_str v s = false.
Proof. intros H. destruct v; try reflexivity. now destruct (H s0). Qed.

(** X6. ChangeStatus(T, S) never touches a task whose title is not T,
    whether it succeeds or raises. (A title that is not a string is not T,
    whatever T is.) *)
Theorem change_task_status_other_titles (task_title : str) (new_status : TaskStatus)
    (st : State) (i : nat) (task : Task) :
  tasks (self st) !! i = Some task ->
  py_eq_str (title task) task_title = false ->
  tasks (self (snd (change_task_status task_title new_status st))) !! i = Some task.
Proof.
  intros Hi Hne.
  destruct (change_task_status_cases task_title new_status st)
    as [[_ ->] | (i0 & task0 & Hi0 & Hm0 & _ & ->)]; [assumption |].
  cbn [snd self tasks]. rewrite list_lookup_alter_ne; [assumption |].
  intros ->. congruence.
Qed.

Lemma change_task_status_other_titles_witness :
  tasks (self (snd (change_task_status (lit "Write spec") COMPLETED
                      (state_of [other_task; sample_task])))) !! 0%nat
  = Some other_task.
Proof.
  apply (change_task_status_other_titles (lit "Write spec") COMPLETED
           (state_of [other_task; sample_task]) 0 other_task); reflexivity.
Defined.

(** X7. Two status changes on the same title in a row hit the same task: the
    first task of that title ends with the second status and the time of the
    second call, every other task - later ones of the same title too - is as
    before, and both changes are in the history. *)
Theorem change_task_status_twice (task_title : str) (s1 s2 : TaskStatus)
    (i : nat) (task : Task) (st : State) :
  tasks (self st) !! i = Some task ->
  py_eq_str (title task) task_title = true ->
  (forall j other, (j < i)%nat -> tasks (self st) !! j = Some other ->
                   py_eq_str (title other) task_title = false) ->
  exists st' e1 e2,
    (change_task_status task_title s1 ;;; change_task_status task_title s2)%M st
      = (inr tt, st') /\
    tasks (self st') !! i =
      Some {| title := title task; description := description task;
              status := s2;
              created_date := created_date task;
              status_changed_date := clock st (S (ticks st)) |} /\
    (forall j, j <> i -> tasks (self st') !! j = tasks (self st) !! j) /\
    history (self st') = history (self st) ++ [e1; e2].
Proof.
  intros Hi Hm Hb. unfold bind.
  rewrite (change_task_status_found _ s1 i task st Hi Hm Hb).
  set (st1 := {| self := _ |}).
  assert (Hi1 : tasks (self st1) !! i = Some (changed s1 (clock st (ticks st)) task)).
  { cbn. now rewrite list_lookup_alter_eq, Hi. }
  rewrite (change_task_status_found _ s2 i _ st1 Hi1).
  - eexists _, _, _. split; [reflexivity |]. cbn [self tasks history st1].
    split; [| split].
    + rewrite list_alter_alter_eq, list_lookup_alter_eq, Hi. reflexivity.
    + intros j Hj. now rewrite !list_lookup_alter_ne by congruence.
    + now rewrite <- app_assoc.
  - exact Hm.
  - intros j other Hj. cbn. rewrite list_lookup_alter_ne by lia. now apply Hb.
Qed.

Lemma change_task_status_twice_witness :
  exists st' e1 e2,
    (change_task_status (lit "Write spec") IN_PROGRESS ;;;
     change_task_status (lit "Write spec") COMPLETED)%M
      (state_of [other_task; sample_task; sample_task]) = (inr tt, st') /\
    tasks (self st') !! 1%nat =
      Some {| title := title sample_task; description := description sample_task;
              status := COMPLETED;
              created_date := created_date sample_task;
              status_changed_date := ticking_clock 1 |} /\
    (forall j, j <> 1%nat ->
       tasks (self st') !! j = [other_task; sample_task; sample_task] !! j) /\
    history (self st') = [] ++ [e1; e2].
Proof.
  apply (change_task_status_twice (lit "Write spec") IN_PROGRESS COMPLETED 1 sample_task
           (state_of [other_task; sample_task; sample_task])).
  - reflexivity.
  - reflexivity.
  - intros [| j] other Hj; [intros [= <-]; reflexivity | lia].
Defined.

(** X8. A task that was just added can be found: after [add_task] of a task
    titled T, ChangeStatus(T, S) succeeds, and when no earlier task has the
    title it is the new task, at the end of the list, that gets the status. *)
Theorem add_task_then_change (task : Task) (task_title : str) (new_status : TaskStatus)
    (st : State) :
  title task = PStr task_title ->
  exists st',
    (add_task task ;;; change_task_status task_title new_status)%M st = (inr tt, st') /\
    length (tasks (self st')) = S (length (tasks (self st))) /\
    (Forall (fun other => py_eq_str (title other) task_title = false) (tasks (self st)) ->
     tasks (self st') =
       tasks (self st) ++ [changed new_status (clock st (ticks st)) task]).
Proof.
  intros Ht. unfold bind. rewrite add_task_run.
  set (st1 := {| self := _ |}).
  assert (Hm : py_eq_str (title task) task_title = true).
  { rewrite Ht. cbn. now apply bool_decide_eq_true. }
  destruct (change_task_status_cases task_title new_status st1)
    as [[Hall _] | (i & found & Hi & Hmi & Hb & ->)].
  { exfalso. cbn in Hall. apply Forall_app in Hall as [_ Hlast].
    apply Forall_cons in Hlast as [Hlast _]. congruence. }
  eexists. split; [reflexivity |]. cbn [self tasks st1 ticks clock]. split.
  - rewrite length_alter, length_app. cbn. lia.
  - intros Hnone.
    assert (i = length (tasks (self st))) as ->.
    { cbn in Hi, Hb.
      destruct (Nat.lt_trichotomy i (length (tasks (self st)))) as [Hlt | [-> | Hgt]].
      - rewrite lookup_app_l in Hi by assumption.
        rewrite Forall_forall in Hnone.
        apply list_elem_of_lookup_2 in Hi. specialize (Hnone _ Hi). congruence.
      - reflexivity.
      - specialize (Hb (length (tasks (self st))) task Hgt).
        rewrite lookup_app_r, Nat.sub_diag in Hb by lia.
        specialize (Hb eq_refl). congruence. }
    replace (length (tasks (self st))) with (length (tasks (self st)) + 0)%nat at 1 by lia.
    rewrite alter_app_r. reflexivity.
Qed.

Lemma add_task_then_change_witness :
  exists st',
    (add_task sample_task ;;; change_task_status (lit "Write spec") COMPLETED)%M
      (state_of [other_task]) = (inr tt, st') /\
    length (tasks (self st')) = 2%nat /\
    (Forall (fun other => py_eq_str (title other) (lit "Write spec") = false) [other_task] ->
     tasks (self st') =
       [other_task] ++ [changed COMPLETED (ticking_clock 0) sample_task]).
Proof.
  apply (add_task_then_change sample_task (lit "Write spec") COMPLETED
           (state_of [other_task])).
  reflexivity.
Defined.

(** ** What no sequence of calls does *)

Lemma run_call_keeps (c : call) (st : State) :
  List.map identity_of (tasks (self st))
    `prefix_of` List.map identity_of (tasks (self (snd (run_call c st)))) /\
  history (self st) `prefix_of` history (self (snd (run_call c st))) /\
  length (tasks (self (snd (run_call c st)))) =
    (length (tasks (self st)) + if is_add c then 1 else 0)%nat /\
  (length (history (self (snd (run_call c st)))) <= S (length (history (self st))))%nat.
Proof.
  assert (Hchange : forall task_title new_status,
    List.map identity_of (tasks (self st))
      `prefix_of` List.map identity_of
          (tasks (self (snd (change_task_status task_title new_status st)))) /\
    history (self st)
      `prefix_of` history (self (snd (change_task_status task_title new_status st))) /\
    length (tasks (self (snd (change_task_status task_title new_status st)))) =
      (length (tasks (self st)) + 0)%nat /\
    (length (history (self (snd (change_task_status task_title new_status st))))
       <= S (length (history (self st))))%nat).
  { intros task_title new_status.
    destruct (change_task_status_cases task_title new_status st)
      as [[_ ->] | (i & task & _ & _ & _ & ->)]; cbn [snd self tasks history].
    - repeat split; [reflexivity | reflexivity | lia | lia].
    - rewrite identity_of_alter by reflexivity. rewrite length_alter, length_app.
      repeat split; [reflexivity | now apply prefix_app_r | lia | cbn; lia]. }
  destruct c as [task | task_title new_status | task_title | file_path];
    cbn [run_call is_add].
  - rewrite add_task_run. cbn [snd self tasks history].
    rewrite map_app, !length_app. cbn [length].
    repeat split; [now apply prefix_app_r | now apply prefix_app_r | lia].
  - apply Hchange.
  - apply Hchange.
  - unfold save_to_file, bind, get_self, json_dump.
    destruct (writable st file_path); cbn [snd self];
      repeat split; reflexivity || lia.
Qed.

(** X9. Whatever methods a caller calls, in whatever order and whether they
    raise or not: no task is ever removed or reordered, no task's title,
    description or created_date ever changes, the history only grows, by at
    most one entry per call, and the number of tasks grows by exactly the
    number of [add_task] calls. *)
Theorem calls_never_remove (cs : list call) (st : State) :
  List.map identity_of (tasks (self st))
    `prefix_of` List.map identity_of (tasks (self (run_calls cs st))) /\
  history (self st) `prefix_of` history (self (run_calls cs st)) /\
  length (tasks (self (run_calls cs st))) =
    (length (tasks (self st)) + length (List.filter is_add cs))%nat /\
  (length (history (self (run_calls cs st))) <= length (history (self st)) + length cs)%nat.
Proof.
  revert st. induction cs as [| c cs IH]; intros st; cbn [run_calls].
  - cbn. repeat split; reflexivity || lia.
  - destruct (run_call_keeps c st) as (Ht & Hh & Hn & Hl).
    destruct (IH (snd (run_call c st))) as (Ht' & Hh' & Hn' & Hl').
    repeat split.
    + now transitivity (List.map identity_of (tasks (self (snd (run_call c st))))).
    + now transitivity (history (self (snd (run_call c st)))).
    + rewrite Hn', Hn. cbn [List.filter]. destruct (is_add c); cbn [length]; lia.
    + cbn [length]. lia.
Qed.

(** ** [save_to_file] *)



(** ** [load_from_file] *)

Lemma mapR_inr {A B} (f : A -> result B) (l : list A) (bs : list B) :
  mapR f l = inr bs <-> Forall2 (fun a b => f a = inr b) l bs.
Proof.
  revert bs. induction l as [| a l IH]; intros bs; cbn [mapR].
  - split; [intros [= <-]; constructor | intros H; now apply Forall2_nil_inv_l in H as ->].
  - split.
    + destruct (f a) as [| b] eqn:Ha; [discriminate |].
      destruct (mapR f l) as [| bs'] eqn:Hl; [discriminate |].
      intros [= <-]. constructor; [assumption |]. now apply IH.
    + intros H. apply Forall2_cons_inv_l in H as (b & bs' & Ha & Hl & ->).
      apply IH in Hl. now rewrite Ha, Hl.
Qed.

Lemma mapR_inl {A B} (f : A -> result B) (good rest : list A) (bad : A) (e : exception) :
  Forall (fun a => exists b, f a = inr b) good ->
  f bad = inl e ->
  mapR f (good ++ bad :: rest) = inl e.
Proof.
  intros Hgood Hbad. induction Hgood as [| a good [b Ha] _ IH]; cbn [app mapR].
  - now rewrite Hbad.
  - now rewrite Ha, IH.
Qed.

Lemma TaskManager_init_Some (ts : list Task) :
  TaskManager_init (Some ts) = {| tasks := ts; history := [] |}.
Proof. now destruct ts. Qed.

Lemma load_from_file_list (file_path : str) (st : State) (d : gmap str pyval)
    (items : list pyval) :
  files st !! file_path = Some (JSON (PDict d)) ->
  d !! k_tasks = Some (PList items) ->
  load_from_file file_path st =
    (match mapR from_dict items with
     | inl e => inl e
     | inr ts => inr {| tasks := ts; history := [] |}
     end, st).
Proof.
  intros Hf Hd. rewrite load_from_file_run, Hf. unfold py_get. rewrite Hd.
  cbn [rbind py_iter]. destruct (mapR from_dict items); cbn [rbind]; [reflexivity |].
  now rewrite TaskManager_init_Some.
Qed.

(** X11. Loading a file whose "tasks" is a list gives one task per record, in
    the order of the file, each the [from_dict] of its record, and an empty
    history - and only that: Load returns a manager exactly when every record
    deserializes. *)
Theorem load_from_file_records (file_path : str) (st : State) (d : gmap str pyval)
    (items : list pyval) (m : TaskManager) :
  files st !! file_path = Some (JSON (PDict d)) ->
  d !! k_tasks = Some (PList items) ->
  (load_from_file file_path st = (inr m, st) <->
   Forall2 (fun item task => from_dict item = inr task) items (tasks m) /\
   history m = []).
Proof.
  intros Hf Hd. rewrite (load_from_file_list _ _ _ _ Hf Hd). split.
  - destruct (mapR from_dict items) as [| ts] eqn:Hm; [discriminate |].
    intros [= <-]. split; [now apply mapR_inr | reflexivity].
  - intros [Hall Hh]. apply mapR_inr in Hall. rewrite Hall.
    destruct m as [ts h]. cbn in *. now subst.
Qed.

Lemma load_from_file_records_witness :
  load_from_file (lit "tasks.json")
    (state_with_file (PDict {[ k_tasks := PList [PDict lenient_record] ]}))
  = (inr {| tasks := [lenient_task]; history := [] |},
     state_with_file (PDict {[ k_tasks := PList [PDict lenient_record] ]}))
  <-> Forall2 (fun item task => from_dict item = inr task)
        [PDict lenient_record] [lenient_task] /\ @nil fstring = [].
Proof.
  apply (load_from_file_records (lit "tasks.json")
           (state_with_file (PDict {[ k_tasks := PList [PDict lenient_record] ]}))
           {[ k_tasks := PList [PDict lenient_record] ]}
           [PDict lenient_record]
           {| tasks := [lenient_task]; history := [] |}).
  - vm_compute. reflexivity.
  - vm_compute. reflexivity.
Defined.

(** X12. Load is all or nothing: when a record of the list does not
    deserialize, Load raises what [from_dict] raised on the first such record
    and returns no manager, whatever the records before and after it are; the
    state is as before. *)
Theorem load_from_file_first_bad_record (file_path : str) (st : State)
    (d : gmap str pyval) (good rest : list pyval) (bad : pyval) (e : exception) :
  files st !! file_path = Some (JSON (PDict d)) ->
  d !! k_tasks = Some (PList (good ++ bad :: rest)) ->
  Forall (fun item => exists task, from_dict item = inr task) good ->
  from_dict bad = inl e ->
  load_from_file file_path st = (inl e, st).
Proof.
  intros Hf Hd Hgood Hbad. rewrite (load_from_file_list _ _ _ _ Hf Hd).
  now rewrite (mapR_inl from_dict good rest bad e Hgood Hbad).
Qed.

Lemma load_from_file_first_bad_record_witness :
  load_from_file (lit "tasks.json")
    (state_with_file
       (PDict {[ k_tasks := PList ([PDict lenient_record]
                                     ++ PDict february_30_record
                                     :: [PDict lenient_record]) ]}))
  = (inl (ValueError out_of_range),
     state_with_file
       (PDict {[ k_tasks := PList ([PDict lenient_record]
                                     ++ PDict february_30_record
                                     :: [PDict lenient_record]) ]})).
Proof.
  apply (load_from_file_first_bad_record (lit "tasks.json") _
           {[ k_tasks := PList ([PDict lenient_record]
                                  ++ PDict february_30_record
                                  :: [PDict lenient_record]) ]}
           [PDict lenient_record] [PDict lenient_record]
           (PDict february_30_record) (ValueError out_of_range)).
  - vm_compute. reflexivity.
  - vm_compute. reflexivity.
  - repeat constructor. exists lenient_task. vm_compute. reflexivity.
  - vm_compute. reflexivity.
Defined.

(** X13. When "tasks" is not a list: [null], a boolean or a number raises
    [TypeError]; an empty string or an empty object loads as a store without
    tasks; a string or an object that is not empty raises [TypeError], as its
    characters or keys are no records. *)
Theorem load_from_file_tasks_not_a_list (file_path : str) (st : State)
    (d : gmap str pyval) (v : pyval) :
  files st !! file_path = Some (JSON (PDict d)) ->
  d !! k_tasks = Some v ->
  (v = PNone \/ (exists b, v = PBool b) \/ (exists z, v = PInt z) \/
   (exists f, v = PFloat f) ->
   load_from_file file_path st = (inl TypeError, st)) /\
  (v = PStr [] \/ v = PDict ∅ ->
   load_from_file file_path st = (inr {| tasks := []; history := [] |}, st)) /\
  ((exists s, v = PStr s /\ s <> []) \/ (exists d', v = PDict d' /\ d' <> ∅) ->
   load_from_file file_path st = (inl TypeError, st)).
Proof.
  intros Hf Hd. rewrite load_from_file_run, Hf. unfold py_get. rewrite Hd.
  cbn [rbind]. split; [| split].
  - intros [-> | [[b ->] | [[z ->] | [f ->]]]]; reflexivity.
  - intros [-> | ->]; cbn [py_iter]; [reflexivity |].
    rewrite map_to_list_empty. reflexivity.
  - intros [(s & -> & Hs) | (d' & -> & Hd')]; cbn [py_iter rbind].
    + destruct s as [| c s]; [congruence |]. reflexivity.
    + destruct (map_to_list d') as [| [k x] l] eqn:Hl.
      { apply map_to_list_empty_iff in Hl. congruence. }
      reflexivity.
Qed.

Lemma load_from_file_tasks_not_a_list_witness :
  load_from_file (lit "tasks.json")
    (state_with_file (PDict {[ k_tasks := PStr (lit "abc") ]}))
  = (inl TypeError, state_with_file (PDict {[ k_tasks := PStr (lit "abc") ]})).
Proof.
  apply (proj2 (proj2 (load_from_file_tasks_not_a_list (lit "tasks.json")
           (state_with_file (PDict {[ k_tasks := PStr (lit "abc") ]}))
           {[ k_tasks := PStr (lit "abc") ]} (PStr (lit "abc"))
           ltac:(vm_compute; reflexivity) ltac:(vm_compute; reflexivity)))).
  left. exists (lit "abc"). split; [reflexivity | discriminate].
Defined.






(** * The menu loop *)


Lemma save_to_file_raises (file_path : str) (st st' : State) (e : exception) :
  save_to_file file_path st = (inl e, st') -> st' = st.
Proof.
  unfold save_to_file, bind, get_self, json_dump.
  destruct (writable st file_path); [discriminate | now intros [= _ <-]].
Qed.

Lemma save_to_file_returns (file_path : str) (st st' : State) :
  save_to_file file_path st = (inr tt, st') ->
  self st' = self st /\
  files st' =
    <[file_path := JSON (PDict {[ k_tasks := PList (List.map to_dict (tasks (self st))) ]})]>
      (files st).
Proof.
  unfold save_to_file, bind, get_self, json_dump.
  destruct (writable st file_path); [| discriminate]. intros [= <-]. split; reflexivity.
Qed.

Lemma TaskStatus_by_name_raises n e : TaskStatus_by_name n = inl e -> e = KeyError n.
Proof.
  unfold TaskStatus_by_name. destruct (List.find _ members); [discriminate |].
  now intros [= <-].
Qed.

Lemma change_task_status_raises (task_title : str) (new_status : TaskStatus)
    (st st' : State) (e : exception) :
  change_task_status task_title new_status st = (inl e, st') ->
  e = NotFoundError task_title /\ st' = st /\
  Forall (fun task => py_eq_str (title task) task_title = false) (tasks (self st)).
Proof.
  destruct (change_task_status_cases task_title new_status st)
    as [[Hall ->] | (i & task & _ & _ & _ & ->)]; [| discriminate].
  intros [= <- <-]. auto.
Qed.

Section MenuFacts.
Variable upper : str -> str.

Lemma change_by_name_run (title status_str : str) (st : State) :
  change_by_name upper title status_str st =
    match TaskStatus_by_name (upper status_str) with
    | inl e => (inl e, st)
    | inr new_status =>
        match change_task_status title new_status st with
        | (inl e, st') => (inl e, st')
        | (inr _, st') => (inr new_status, st')
        end
    end.
Proof.
  unfold change_by_name, bind, lift, ret.
  destruct (TaskStatus_by_name (upper status_str)); [reflexivity |].
  now destruct (change_task_status title t st) as [[|] ?].
Qed.

(** A relation between states that adding a task and changing a status
    keep is kept by the menu up to the moment it saves. *)
Variable R : State -> State -> Prop.
Hypothesis R_refl : forall st, R st st.
Hypothesis R_trans : forall a b c, R a b -> R b c -> R a c.
Hypothesis R_add : forall title description st, R st (snd (main_add title description st)).
Hypothesis R_change :
  forall task_title new_status st, R st (snd (change_task_status task_title new_status st)).

Lemma kept_after (file : str) (st st1 : State) r :
  R st st1 -> kept R file st1 r -> kept R file st r.
Proof.
  intros H [H1 | (Hr & st2 & H2 & Hs)]; [left | right]; eauto 6.
Qed.

Lemma menu_loop_keeps (file : str) (stdin : list str) :
  forall (st : State) (stdout : list fstring),
    kept R file st (menu_loop upper file stdin st stdout).
Proof.
  remember (length stdin) as n eqn:Hn.
  assert (Hle : (length stdin <= n)%nat) by lia. clear Hn.
  revert stdin Hle. induction n as [| n IH]; intros stdin Hle st stdout.
  { destruct stdin; [| cbn in Hle; lia]. left. apply R_refl. }
  destruct stdin as [| choice stdin1]; [left; apply R_refl |].
  cbn [length] in Hle. cbn [menu_loop].
  repeat case_bool_decide.
  - destruct stdin1 as [| title stdin2]; [left; apply R_refl |].
    destruct stdin2 as [| description stdin3]; [left; apply R_refl |].
    cbn [length] in Hle. pose proof (R_add title description st) as Ha.
    destruct (main_add title description st) as [[e |] st'];
      [left; exact Ha |].
    eapply kept_after; [exact Ha |]. apply IH. lia.
  - destruct stdin1 as [| title stdin2]; [left; apply R_refl |].
    destruct stdin2 as [| status_str stdin3]; [left; apply R_refl |].
    cbn [length] in Hle. rewrite change_by_name_run.
    destruct (TaskStatus_by_name (upper status_str)) as [e | new_status] eqn:Hs.
    + apply TaskStatus_by_name_raises in Hs as ->. cbn [is_KeyError].
      apply IH. lia.
    + pose proof (R_change title new_status st) as Hc.
      destruct (change_task_status title new_status st) as [[e |] st'] eqn:Hch.
      * apply change_task_status_raises in Hch as (-> & -> & _).
        cbn [is_KeyError NotFoundError]. left. apply R_refl.
      * eapply kept_after; [exact Hc |]. apply IH. lia.
  - destruct stdin1 as [| title stdin2]; [left; apply R_refl |].
    cbn [length] in Hle. unfold cancel_task.
    pose proof (R_change title CANCELED st) as Hc.
    destruct (change_task_status title CANCELED st) as [[e |] st'];
      [left; exact Hc |].
    eapply kept_after; [exact Hc |]. apply IH. lia.
  - destruct (save_to_file file st) as [[e | []] st'] eqn:Hsave.
    + apply save_to_file_raises in Hsave as ->. left. apply R_refl.
    + right. split; [reflexivity |]. exists st. split; [apply R_refl | exact Hsave].
  - left. apply R_refl.
  - apply IH. lia.
Qed.
End MenuFacts.

Ltac choose :=
  repeat match goal with
    | |- context [bool_decide (?a = ?b)] =>
        first [ rewrite (bool_decide_eq_true_2 (a = b)) by reflexivity
              | rewrite (bool_decide_eq_false_2 (a = b)) by (vm_compute; discriminate) ]
    end.


(** X16. Nothing the menu offers removes a task or changes a task's title,
    description or created_date: through any run of the menu, whatever is
    typed, the tasks the manager had are still there in their order, new tasks
    come after them, and the history only grows. *)
Theorem menu_loop_never_removes (upper : str -> str) (file : str) (stdin : list str)
    (st : State) (stdout : list fstring) :
  let st' := final_state (menu_loop upper file stdin st stdout) in
  List.map identity_of (tasks (self st))
    `prefix_of` List.map identity_of (tasks (self st')) /\
  history (self st) `prefix_of` history (self st').
Proof.
  set (R := fun a b : State =>
    List.map identity_of (tasks (self a)) `prefix_of` List.map identity_of (tasks (self b)) /\
    history (self a) `prefix_of` history (self b)).
  assert (Hr : kept R file st (menu_loop upper file stdin st stdout)).
  { apply menu_loop_keeps.
    - intros s. split; reflexivity.
    - intros a b c [H1 H2] [H3 H4]. split; etransitivity; eassumption.
    - intros title description s. unfold R. rewrite main_add_run.
      cbn [snd self tasks history]. rewrite map_app. split; now apply prefix_app_r.
    - intros task_title new_status s.
      destruct (run_call_keeps (call_change_task_status task_title new_status) s)
        as (H1 & H2 & _). split; assumption. }
  cbv zeta. unfold final_state.
  destruct Hr as [Hsame | (_ & st1 & Hst1 & Hsave)]; [exact Hsame |].
  apply save_to_file_returns in Hsave as [Hself _]. rewrite Hself. exact Hst1.
Qed.

(** X17. A title that no task has ends the program: in "3. cancel", and in
    "2. change status" with a status name that exists, the [ValueError] of the
    look-up is not caught; the rest of the input is not read and nothing is
    saved, the manager and the files being as they were before the choice. *)
Theorem menu_unknown_title_ends_program (upper : str -> str) (file : str)
    (task_title : str) (rest : list str) (st : State) (stdout : list fstring) :
  Forall (fun task => py_eq_str (title task) task_title = false) (tasks (self st)) ->
  fst (menu_loop upper file (lit "3" :: task_title :: rest) st stdout)
    = (raised (NotFoundError task_title), st) /\
  (forall (status_str : str) (new_status : TaskStatus),
     TaskStatus_by_name (upper status_str) = inr new_status ->
     fst (menu_loop upper file (lit "2" :: task_title :: status_str :: rest) st stdout)
       = (raised (NotFoundError task_title), st)).
Proof.
  intros Hnone. split.
  - cbn [menu_loop]. choose.
    unfold cancel_task. now rewrite change_task_status_not_found.
  - intros status_str new_status Hname. cbn [menu_loop].
    choose.
    rewrite change_by_name_run, Hname, change_task_status_not_found by assumption.
    reflexivity.
Qed.

Lemma menu_unknown_title_ends_program_witness :
  fst (menu_loop ascii_upper (lit "tasks.json")
         (lit "3" :: lit "Deploy" :: [lit "4"]) (state_of [sample_task]) [])
    = (raised (NotFoundError (lit "Deploy")), state_of [sample_task]) /\
  (forall (status_str : str) (new_status : TaskStatus),
     TaskStatus_by_name (ascii_upper status_str) = inr new_status ->
     fst (menu_loop ascii_upper (lit "tasks.json")
            (lit "2" :: lit "Deploy" :: status_str :: [lit "4"])
            (state_of [sample_task]) [])
       = (raised (NotFoundError (lit "Deploy")), state_of [sample_task])).
Proof.
  apply (menu_unknown_title_ends_program ascii_upper (lit "tasks.json") (lit "Deploy")
           [lit "4"] (state_of [sample_task]) []).
  repeat constructor.
Defined.

(** X18. A status name that does not exist is reported and changes nothing:
    the menu goes on with the next line of input and the same state - also
    when the title does not exist either, since the name is looked up first. *)
Theorem menu_unknown_status_goes_on (upper : str -> str) (file : str)
    (task_title status_str : str) (rest : list str) (st : State) (stdout : list fstring) :
  (forall s : TaskStatus, upper status_str <> name s) ->
  exists stdout',
    menu_loop upper file (lit "2" :: task_title :: status_str :: rest) st stdout
    = menu_loop upper file rest st (stdout' ++ [[Text (lit "Неверный статус.")]]).
Proof.
  intros Hname. cbn [menu_loop]. choose.
  rewrite change_by_name_run.
  destruct (TaskStatus_by_name (upper status_str)) as [e | s] eqn:Hs.
  - apply TaskStatus_by_name_raises in Hs as ->. cbn [is_KeyError]. eauto.
  - apply TaskStatus_by_name_inr in Hs. now destruct (Hname s).
Qed.

Lemma menu_unknown_status_goes_on_witness :
  exists stdout',
    menu_loop ascii_upper (lit "tasks.json")
      (lit "2" :: lit "Deploy" :: lit "done" :: [lit "5"]) (state_of [sample_task]) []
    = menu_loop ascii_upper (lit "tasks.json") [lit "5"] (state_of [sample_task])
        (stdout' ++ [[Text (lit "Неверный статус.")]]).
Proof.
  apply (menu_unknown_status_goes_on ascii_upper (lit "tasks.json") (lit "Deploy")
           (lit "done") [lit "5"] (state_of [sample_task]) []).
  intros s. destruct s; vm_compute; discriminate.
Defined.

(** X19. A first run and a second one: started on a file that is not there,
    the program begins with an empty store; after "1", a title, a description
    and "4" it has written the file and returns; started again on that file
    and left with "5", it holds exactly the one task, with status New and the
    two clock readings of the first run cut to the second, and an empty
    history. *)
Theorem first_run_then_second_run (upper : str -> str) (file : str)
    (title description : str) (st : State) :
  files st !! file = None ->
  writable st file = true ->
  valid_datetime (clock st (ticks st)) = true ->
  valid_datetime (clock st (S (ticks st))) = true ->
  exists st' stdout,
    main upper file [lit "1"; title; description; lit "4"] st = (returned, st', stdout) /\
    how (main upper file [lit "5"] st') = returned /\
    self (final_state (main upper file [lit "5"] st')) =
      {| tasks := [ {| title := PStr title; description := PStr description;
                       status := NEW;
                       created_date := truncate (clock st (ticks st));
                       status_changed_date := truncate (clock st (S (ticks st))) |} ];
         history := [] |}.
Proof.
  intros Hnone Hw Hc Hsc. unfold main at 1.
  rewrite load_from_file_run, Hnone. cbn [menu_loop]. choose.
  rewrite main_add_run. cbn [menu_loop]. choose.
  match goal with |- context [save_to_file file ?s] => set (st1 := s) end.
  destruct (save_then_load file st1) as (st' & Hsave & Hload).
  - exact Hw.
  - repeat constructor. unfold valid_task. cbn. now rewrite Hc, Hsc.
  - rewrite Hsave. eexists _, _. split; [reflexivity |].
    unfold main. rewrite Hload. cbn [menu_loop]. choose.
    split; reflexivity.
Qed.

Lemma first_run_then_second_run_witness :
  exists st' stdout,
    main ascii_upper (lit "tasks.json")
      [lit "1"; lit "Write spec"; lit ""; lit "4"] (state_of []) = (returned, st', stdout) /\
    how (main ascii_upper (lit "tasks.json") [lit "5"] st') = returned /\
    self (final_state (main ascii_upper (lit "tasks.json") [lit "5"] st')) =
      {| tasks := [ {| title := PStr (lit "Write spec"); description := PStr (lit "");
                       status := NEW;
                       created_date := truncate (ticking_clock 0);
                       status_changed_date := truncate (ticking_clock 1) |} ];
         history := [] |}.
Proof.
  apply (first_run_then_second_run ascii_upper (lit "tasks.json")
           (lit "Write spec") (lit "") (state_of [])); reflexivity.
Defined.

(** X20. A file that is there but does not load ends the program before
    the menu is shown: a text that is not JSON, or a list with a record that
    does not deserialize, makes the program raise at once, with no output and
    no input read. *)
Theorem main_bad_file_ends_program (upper : str -> str) (file : str)
    (stdin : list str) (st : State) :
  (files st !! file = Some NotJSON ->
   main upper file stdin st = (raised (ValueError JSONDecodeError), st, [])) /\
  (forall (d : gmap str pyval) (good rest : list pyval) (bad : pyval) (e : exception),
     files st !! file = Some (JSON (PDict d)) ->
     d !! k_tasks = Some (PList (good ++ bad :: rest)) ->
     Forall (fun item => exists task, from_dict item = inr task) good ->
     from_dict bad = inl e ->
     main upper file stdin st = (raised e, st, [])).
Proof.
  split.
  - intros Hf. unfold main. now rewrite load_from_file_run, Hf.
  - intros d good rest bad e Hf Hd Hgood Hbad. unfold main.
    rewrite (load_from_file_list _ _ _ _ Hf Hd).
    rewrite (mapR_inl from_dict good rest bad e Hgood Hbad).
    apply from_dict_FormatError in Hbad. now destruct e.
Qed.

Lemma main_bad_file_ends_program_witness :
  main ascii_upper (lit "tasks.json") [lit "5"]
    (state_with_file (PDict {[ k_tasks := PList ([] ++ PDict february_30_record :: []) ]}))
  = (raised (ValueError out_of_range),
     state_with_file (PDict {[ k_tasks := PList ([] ++ PDict february_30_record :: []) ]}),
     []).
Proof.
  apply (proj2 (main_bad_file_ends_program ascii_upper (lit "tasks.json") [lit "5"]
                  (state_with_file
                     (PDict {[ k_tasks := PList ([] ++ PDict february_30_record :: []) ]})))
           {[ k_tasks := PList ([] ++ PDict february_30_record :: []) ]}
           [] [] (PDict february_30_record) (ValueError out_of_range)).
  - vm_compute. reflexivity.
  - vm_compute. reflexivity.
  - constructor.
  - vm_compute. reflexivity.
Defined.

(** * Operations composed with saving and loading *)







